(** * Vevor BLE diesel heater: frame codec and command session

    A shallow embedding of [src/heater.py]: the status frame decoder
    ([VevorHeaterStatusBle.from_ble_data_array], [_verify]), the conversion to
    the domain record ([VevorHeaterStatus.from_ble_status]), the outgoing
    command frames and the request/response session of [VevorDevice].

    Conventions of the embedding:
    - a Python [int] is a [Z]; a [bytearray] is a [list byte], read back as
      ints with [int_of_byte];
    - code that can raise returns a [result]; the exception classes that the
      modelled code can raise are the constructors of [exn];
    - a [float] obtained from an int is carried as the exact rational it
      stands for ([elevation] as the integer itself, [input_voltage] as
      decivolts over ten);
    - mutation of [self] is explicit state passing. *)

From Stdlib Require Import String.
From Stdlib Require Import ZArith List Bool Lia ZifyBool.
From Stdlib Require Import Strings.Byte.
From Stdlib Require QArith.QArith_base.
Import ListNotations.
Open Scope Z_scope.

(** ** Exceptions and the error monad *)

Inductive exn : Type :=
| ValueError    (* enum constructor on a non member, byte out of range(256),
                   BLE address mismatch *)
| StructError   (* struct.error: buffer size differs from the format size *)
| IndexError.   (* sequence index out of range *)

Inductive result (A : Type) : Type :=
| Ok (a : A)
| Raise (e : exn).
Arguments Ok {A} a.
Arguments Raise {A} e.

Definition bind {A B : Type} (r : result A) (k : A -> result B) : result B :=
  match r with
  | Ok a => k a
  | Raise e => Raise e
  end.

Notation "x <- r ;; k" := (bind r (fun x => k))
  (at level 61, r at next level, right associativity).

(** ** Bytes and ints *)

Definition int_of_byte (b : byte) : Z := Z.of_N (Byte.to_N b).

Definition ints (data : list byte) : list Z := map int_of_byte data.

(** [x in range(a, b)] on ints. *)
Definition in_range (a b x : Z) : bool := (a <=? x) && (x <? b).

(** One element of [bytearray(iterable)]: an int outside range(256) is a
    ValueError. *)
Definition byte_of_int (z : Z) : result byte :=
  if in_range 0 256 z then
    match Byte.of_N (Z.to_N z) with
    | Some b => Ok b
    | None => Raise ValueError
    end
  else Raise ValueError.

Fixpoint bytearray (l : list Z) : result (list byte) :=
  match l with
  | [] => Ok []
  | z :: l' =>
      b <- byte_of_int z ;;
      bs <- bytearray l' ;;
      Ok (b :: bs)
  end.

(** Builtin [sum] on ints. *)
Definition sum (l : list Z) : Z := fold_left Z.add l 0.

(** [data[i]] for a non negative index. *)
Definition getitem (data : list byte) (i : nat) : result Z :=
  match nth_error data i with
  | Some b => Ok (int_of_byte b)
  | None => Raise IndexError
  end.

(** [data[-1] = v]. *)
Definition setitem_last (data : list byte) (v : Z) : result (list byte) :=
  match data with
  | [] => Raise IndexError
  | _ :: _ =>
      b <- byte_of_int v ;;
      Ok (removelast data ++ [b])
  end.

(** Little endian unsigned 16 bit field (format character [H] under [<]). *)
Definition u16le (lo hi : byte) : Z := int_of_byte lo + 256 * int_of_byte hi.

(** ** Enumerations *)

Inductive RequestType : Type :=
| READ_STATUS | SET_OP_MODE | TURN_ON_OFF | SET_HEATING_INTENSITY.

Definition RequestType_value (r : RequestType) : Z :=
  match r with
  | READ_STATUS => 1
  | SET_OP_MODE => 2
  | TURN_ON_OFF => 3
  | SET_HEATING_INTENSITY => 4
  end.

Inductive PowerStatus : Type := OFF | RUNNING | ERROR.

Inductive OperationalStatus : Type :=
| WARMUP | SELF_TEST_RUNNING | IGNITION | HEATING | SHUTTING_DOWN.

Inductive OperationalMode : Type := POWER_LEVEL | TARGET_TEMPERATURE.

Inductive HeaterError : Type :=
| NO_ERROR
| POWER_SUPPLY_UNDERVOLTAGE
| POWER_SUPPLY_OVERVOLTAGE
| IGNITION_COIL_FAILURE
| FUEL_PUMP_FAILURE
| HIGH_TEMPERATURE_ALARM
| FAN_FAILURE
| CABLE_DAMAGE
| COMBUSTION_FAILURE
| SENSOR_FAILURE
| IGNITION_FAILURE.

Definition OperationalMode_value (m : OperationalMode) : Z :=
  match m with
  | POWER_LEVEL => 1
  | TARGET_TEMPERATURE => 2
  end.

(** [PowerStatus(v)]: the member with value [v], ValueError when there is
    none.  Likewise for the other enumerations. *)
Definition PowerStatus_of (v : Z) : result PowerStatus :=
  match v with
  | 0 => Ok OFF
  | 1 => Ok RUNNING
  | 2 => Ok ERROR
  | _ => Raise ValueError
  end.

Definition OperationalStatus_of (v : Z) : result OperationalStatus :=
  match v with
  | 0 => Ok WARMUP
  | 1 => Ok SELF_TEST_RUNNING
  | 2 => Ok IGNITION
  | 3 => Ok HEATING
  | 4 => Ok SHUTTING_DOWN
  | _ => Raise ValueError
  end.

Definition OperationalMode_of (v : Z) : result OperationalMode :=
  match v with
  | 1 => Ok POWER_LEVEL
  | 2 => Ok TARGET_TEMPERATURE
  | _ => Raise ValueError
  end.

Definition HeaterError_of (v : Z) : result HeaterError :=
  match v with
  | 0 => Ok NO_ERROR
  | 1 => Ok POWER_SUPPLY_UNDERVOLTAGE
  | 2 => Ok POWER_SUPPLY_OVERVOLTAGE
  | 3 => Ok IGNITION_COIL_FAILURE
  | 4 => Ok FUEL_PUMP_FAILURE
  | 5 => Ok HIGH_TEMPERATURE_ALARM
  | 6 => Ok FAN_FAILURE
  | 7 => Ok CABLE_DAMAGE
  | 8 => Ok COMBUSTION_FAILURE
  | 9 => Ok SENSOR_FAILURE
  | 10 => Ok IGNITION_FAILURE
  | _ => Raise ValueError
  end.

(** What the name [OperationalMode] and the expression
    [OperationalMode.TARGET_TEMPERATURE] evaluate to: the enum class itself,
    or one of its members.  [==] between the two is identity; the class is
    not one of its members. *)
Inductive OperationalMode_object : Type :=
| OperationalMode_class
| OperationalMode_member (m : OperationalMode).

Definition OperationalMode_eqb (a b : OperationalMode) : bool :=
  match a, b with
  | POWER_LEVEL, POWER_LEVEL => true
  | TARGET_TEMPERATURE, TARGET_TEMPERATURE => true
  | _, _ => false
  end.

Definition object_eqb (a b : OperationalMode_object) : bool :=
  match a, b with
  | OperationalMode_class, OperationalMode_class => true
  | OperationalMode_member m, OperationalMode_member m' => OperationalMode_eqb m m'
  | _, _ => false
  end.

(** [opmode == OperationalMode.X] where [opmode] is a member or None. *)
Definition opmode_is (opmode : option OperationalMode) (m : OperationalMode) : bool :=
  match opmode with
  | Some m' => OperationalMode_eqb m' m
  | None => false
  end.

(** ** The raw status frame *)

Module VevorHeaterStatusBle.

Record t : Type := mk {
  magic_constant : Z;
  request_type : Z;
  power_status : Z;
  error : Z;
  operational_status : Z;
  elevation : Z;
  operational_mode : Z;
  target_temperature_or_level : Z;
  current_power_level : Z;
  input_voltage_decivolts : Z;
  combustion_temperature : Z;
  room_temperature : Z;
  display_error : Z;
  checksum : Z
}.

(** [struct.unpack("<HBBBBHBBBHHHBxB", buffer)] followed by
    [VevorHeaterStatusBle( *unpacked )].  The format is 20 bytes long
    (five [H], nine [B] and one pad byte [x]); any other buffer size raises
    struct.error. *)
Definition unpack (buffer : list byte) : result t :=
  match buffer with
  | [m0; m1; rt; ps; er; os; el0; el1; om; tg; cp; iv0; iv1; ct0; ct1;
     rm0; rm1; de; _; ck] =>
      Ok {| magic_constant := u16le m0 m1;
            request_type := int_of_byte rt;
            power_status := int_of_byte ps;
            error := int_of_byte er;
            operational_status := int_of_byte os;
            elevation := u16le el0 el1;
            operational_mode := int_of_byte om;
            target_temperature_or_level := int_of_byte tg;
            current_power_level := int_of_byte cp;
            input_voltage_decivolts := u16le iv0 iv1;
            combustion_temperature := u16le ct0 ct1;
            room_temperature := u16le rm0 rm1;
            display_error := int_of_byte de;
            checksum := int_of_byte ck |}
  | _ => Raise StructError
  end.

Definition calculated_checksum (self : t) : Z :=
  sum [ power_status self;
        error self;
        operational_status self;
        elevation self;
        operational_mode self;
        target_temperature_or_level self;
        current_power_level self;
        input_voltage_decivolts self;
        combustion_temperature self;
        room_temperature self;
        display_error self ] mod 256.

(** The list [self._verification_errors] that [_verify] builds, in the order
    of the appends.  A test that does not fire contributes nothing. *)
Definition flag (b : bool) (name : string) : list string :=
  if b then [name] else [].

(** Line 128 reads [self.request_type <= 0 not in range(1, 5)]: a chained
    comparison, [(self.request_type <= 0) and (0 not in range(1, 5))]. *)
Definition request_type_test (self : t) : bool :=
  (request_type self <=? 0) && negb (in_range 1 5 0).

Definition allowed_target_range (mode : Z) : Z * Z :=
  if mode =? 1 then (1, 11)
  else if mode =? 2 then (8, 37)
  else (0, 1).

Definition operational_mode_errors (self : t) : list string :=
  if negb ((operational_mode self =? 0) || (operational_mode self =? 1)
           || (operational_mode self =? 2))
  then ["operational_mode"%string]
  else
    let '(lo, hi) := allowed_target_range (operational_mode self) in
    flag (negb (in_range lo hi (target_temperature_or_level self)))
         "target_temperature_or_level".

Definition range_errors (self : t) : list string :=
  flag (request_type_test self) "request_type"
  ++ flag (negb ((power_status self =? 0) || (power_status self =? 1)
                 || (power_status self =? 2))) "power_status"
  ++ flag (negb (in_range 0 11 (error self))) "error"
  ++ flag (negb (in_range 0 5 (operational_status self))) "operational_status"
  ++ operational_mode_errors self
  ++ flag ((operational_mode self =? 2)
           && negb (in_range 0 10 (current_power_level self)))
          "current_power_level"
  ++ flag (negb (in_range 0 11 (display_error self))) "display_error".

Definition verification_errors (self : t) : list string :=
  (if negb (power_status self =? 0) then range_errors self else [])
  ++ flag (negb (calculated_checksum self =? checksum self)) "checksum".

(** [return not bool(self._verification_errors)]. *)
Definition _verify (self : t) : bool :=
  match verification_errors self with
  | [] => true
  | _ :: _ => false
  end.

(** Returns [Some] frame when it verifies, [None] (after a warning) when it
    does not; raises when the buffer does not unpack. *)
Definition from_ble_data_array (buffer : list byte) : result (option t) :=
  unpacked <- unpack buffer ;;
  if _verify unpacked then Ok (Some unpacked) else Ok None.

End VevorHeaterStatusBle.

(** ** The domain status *)

Module VevorHeaterStatus.

Record t : Type := mk {
  power_status : option PowerStatus;
  operational_mode : option OperationalMode;
  operational_status : option OperationalStatus;
  elevation : option Z;
  target_temperature : option Z;
  target_power_level : option Z;
  current_power_level : option Z;
  input_voltage : option QArith_base.Q;
  combustion_temperature : option Z;
  room_temperature : option Z;
  error : option HeaterError
}.

(** [VevorHeaterStatus(power_status=PowerStatus.OFF)]: every other field
    keeps its default None. *)
Definition off_status : t :=
  {| power_status := Some OFF;
     operational_mode := None;
     operational_status := None;
     elevation := None;
     target_temperature := None;
     target_power_level := None;
     current_power_level := None;
     input_voltage := None;
     combustion_temperature := None;
     room_temperature := None;
     error := None |}.

(** [float(decivolts) / 10]. *)
Definition volts (decivolts : Z) : QArith_base.Q :=
  QArith_base.Qmake decivolts 10.

Definition from_ble_status (status_ble : VevorHeaterStatusBle.t) : result t :=
  if VevorHeaterStatusBle.power_status status_ble =? 0 then Ok off_status
  else
    opmode <-
      (if VevorHeaterStatusBle.operational_mode status_ble =? 0 then Ok None
       else m <- OperationalMode_of
                   (VevorHeaterStatusBle.operational_mode status_ble) ;;
            Ok (Some m)) ;;
    let target_temp_or_level :=
      VevorHeaterStatusBle.target_temperature_or_level status_ble in
    let current_power_level' :=
      if object_eqb OperationalMode_class
                    (OperationalMode_member TARGET_TEMPERATURE)
      then VevorHeaterStatusBle.current_power_level status_ble + 1
      else target_temp_or_level in
    ps <- PowerStatus_of (VevorHeaterStatusBle.power_status status_ble) ;;
    os <- OperationalStatus_of
            (VevorHeaterStatusBle.operational_status status_ble) ;;
    err <-
      (if VevorHeaterStatusBle.display_error status_ble =? 0 then Ok NO_ERROR
       else HeaterError_of (VevorHeaterStatusBle.display_error status_ble)) ;;
    Ok {| power_status := Some ps;
          operational_mode := opmode;
          operational_status := Some os;
          elevation := Some (VevorHeaterStatusBle.elevation status_ble);
          target_temperature :=
            if opmode_is opmode TARGET_TEMPERATURE
            then Some target_temp_or_level else None;
          target_power_level :=
            if opmode_is opmode POWER_LEVEL
            then Some target_temp_or_level else None;
          current_power_level := Some current_power_level';
          input_voltage :=
            Some (volts
                    (VevorHeaterStatusBle.input_voltage_decivolts status_ble));
          combustion_temperature :=
            Some (VevorHeaterStatusBle.combustion_temperature status_ble);
          room_temperature :=
            Some (VevorHeaterStatusBle.room_temperature status_ble);
          error := Some err |}.

End VevorHeaterStatus.

(** ** The command session *)

(** How an awaited call ends: it returns, it raises, or it is still suspended
    on [response_received_latch.wait()] when the notifications run out (the
    source has no timeout). *)
Inductive outcome (A : Type) : Type :=
| Returned (a : A)
| Raised (e : exn)
| Awaiting.
Arguments Returned {A} a.
Arguments Raised {A} e.
Arguments Awaiting {A}.

Record BLEDevice : Type := { ble_address : string }.

(** The variables that [notification_handler] closes over. *)
Record handler_state : Type := {
  response : option VevorHeaterStatus.t;
  response_received_latch : bool
}.

Definition handler_init : handler_state :=
  {| response := None; response_received_latch := false |}.

(** One call of the callback on [response_data], for the outgoing frame
    [data].  The three branches either leave [response] alone or assign it;
    [response_received_latch.set()] follows the [if] and runs after each of
    them. *)
Definition notification_handler (data response_data : list byte)
    (st : handler_state) : result handler_state :=
  status <- VevorHeaterStatusBle.from_ble_data_array response_data ;;
  st' <-
    match status with
    | None => Ok st
    | Some s =>
        d4 <- getitem data 4 ;;
        if negb (VevorHeaterStatusBle.request_type s =? d4) then Ok st
        else
          r <- VevorHeaterStatus.from_ble_status s ;;
          Ok {| response := Some r;
                response_received_latch := response_received_latch st |}
    end ;;
  Ok {| response := response st'; response_received_latch := true |}.

(** A callback that raises has assigned nothing: the exception leaves the
    callback before [response] or the latch is touched, and it does not reach
    the coroutine that awaits the latch. *)
Definition deliver (data : list byte) (st : handler_state)
    (response_data : list byte) : handler_state :=
  match notification_handler data response_data st with
  | Ok st' => st'
  | Raise _ => st
  end.

Module VevorDevice.

Record t : Type := mk {
  name : option string;
  address : option string;
  status : option VevorHeaterStatus.t
}.

Definition address_matches (self : t) (device : BLEDevice) : bool :=
  match address self with
  | Some a => String.eqb (ble_address device) a
  | None => false
  end.

(** [_send_ble_command(device, data)], where [notifications] are the
    payloads the characteristic delivers to the handler between
    [start_notify] and [stop_notify], in order.  The call comes back from
    [response_received_latch.wait()] once some callback has set the latch,
    and returns the closure variable [response].  Connecting, writing and
    disconnecting are taken to succeed; [command_lock] makes calls run one
    after the other, which is how they are composed here. *)
Definition _send_ble_command (self : t) (device : BLEDevice)
    (data : list byte) (notifications : list (list byte))
  : outcome (option VevorHeaterStatus.t) :=
  if negb (address_matches self device) then Raised ValueError
  else
    let st := fold_left (deliver data) notifications handler_init in
    if response_received_latch st then Returned (response st)
    else Awaiting.

(** [response = await ...; if response is not None: self.status = response] *)
Definition store_response (self : t)
    (sent : outcome (option VevorHeaterStatus.t)) : outcome unit * t :=
  match sent with
  | Returned (Some r) =>
      (Returned tt,
       {| name := name self; address := address self; status := Some r |})
  | Returned None => (Returned tt, self)
  | Raised e => (Raised e, self)
  | Awaiting => (Awaiting, self)
  end.

(** Building the frame can raise before anything is sent. *)
Definition send_and_store (self : t) (device : BLEDevice)
    (frame : result (list byte)) (notifications : list (list byte))
  : outcome unit * t :=
  match frame with
  | Raise e => (Raised e, self)
  | Ok data =>
      store_response self (_send_ble_command self device data notifications)
  end.

Definition set_operational_mode_data (mode : OperationalMode)
  : result (list byte) :=
  data <- bytearray [0xAA; 0x55; 0x0C; 0x22; 0x02;
                     OperationalMode_value mode; 0x00; 0x00] ;;
  let checksum := sum (ints (skipn 2 data)) mod 256 in
  setitem_last data checksum.

Definition set_target_data (target : Z) : result (list byte) :=
  data <- bytearray [0xAA; 0x55; 0x0C; 0x22; 0x04; target; 0x00; 0x00] ;;
  let checksum := sum (ints (skipn 2 data)) mod 256 in
  setitem_last data checksum.

Definition refresh_status_data : result (list byte) :=
  bytearray [0xAA; 0x55; 0x0C; 0x22; 0x01; 0x00; 0x00; 0x2F].

Definition turn_on_data : result (list byte) :=
  bytearray [0xAA; 0x55; 0x0C; 0x22; 0x03; 0x01; 0x00; 0x32].

Definition turn_off_data : result (list byte) :=
  bytearray [0xAA; 0x55; 0x0C; 0x22; 0x03; 0x00; 0x00; 0x31].

Definition _set_operational_mode (self : t) (device : BLEDevice)
    (mode : OperationalMode) (notifications : list (list byte))
  : outcome unit * t :=
  send_and_store self device (set_operational_mode_data mode) notifications.

Definition _set_target (self : t) (device : BLEDevice) (target : Z)
    (notifications : list (list byte)) : outcome unit * t :=
  send_and_store self device (set_target_data target) notifications.

Definition refresh_status (self : t) (device : BLEDevice)
    (notifications : list (list byte)) : outcome unit * t :=
  send_and_store self device refresh_status_data notifications.

Definition turn_on (self : t) (device : BLEDevice)
    (notifications : list (list byte)) : outcome unit * t :=
  send_and_store self device turn_on_data notifications.

Definition turn_off (self : t) (device : BLEDevice)
    (notifications : list (list byte)) : outcome unit * t :=
  send_and_store self device turn_off_data notifications.

(** Two sends one after the other; the second is not started when the first
    does not return. *)
Definition then_send (first : outcome unit * t)
    (second : t -> outcome unit * t) : outcome unit * t :=
  match first with
  | (Returned _, self') => second self'
  | stopped => stopped
  end.

Definition set_target_temperature (self : t) (device : BLEDevice)
    (temperature : Z) (notifications1 notifications2 : list (list byte))
  : outcome unit * t :=
  then_send (_set_operational_mode self device TARGET_TEMPERATURE notifications1)
            (fun self' => _set_target self' device temperature notifications2).

Definition set_target_power_level (self : t) (device : BLEDevice)
    (power_level : Z) (notifications1 notifications2 : list (list byte))
  : outcome unit * t :=
  then_send (_set_operational_mode self device POWER_LEVEL notifications1)
            (fun self' => _set_target self' device power_level notifications2).

End VevorDevice.

(** ** Sample frames *)

(** A running heater in target temperature mode answering a status read:
    target 20 degrees, raw power level 3, 12.5 V, checksum 0x77. *)
Definition frame_temperature_mode : list byte :=
  [xaa; x55; x01; x01; x00; x03; x00; x00; x02; x14; x03; x7d; x00; xc8; x00;
   x15; x00; x00; x00; x77].

(** A running heater in power level mode, level 7, checksum 0x6C. *)
Definition frame_power_level_mode : list byte :=
  [xaa; x55; x01; x01; x00; x03; x00; x00; x01; x07; x06; x7d; x00; xc8; x00;
   x15; x00; x00; x00; x6c].

(** A running heater whose frame carries operational mode 0 (and target 0),
    checksum 0x61. *)
Definition frame_mode_unset : list byte :=
  [xaa; x55; x01; x01; x00; x03; x00; x00; x00; x00; x03; x7d; x00; xc8; x00;
   x15; x00; x00; x00; x61].

(** [frame_temperature_mode] with request type 5. *)
Definition frame_request_type_5 : list byte :=
  [xaa; x55; x05; x01; x00; x03; x00; x00; x02; x14; x03; x7d; x00; xc8; x00;
   x15; x00; x00; x00; x77].

(** [frame_temperature_mode] with request type 0. *)
Definition frame_request_type_0 : list byte :=
  [xaa; x55; x00; x01; x00; x03; x00; x00; x02; x14; x03; x7d; x00; xc8; x00;
   x15; x00; x00; x00; x77].

(** A switched off heater: power status 0, every other payload byte out of
    its range, checksum (200+99+0x1234+77+250+40+0xFFFF+0xABCD+0x0190+123)
    mod 256 = 0xA5. *)
Definition frame_off_stale : list byte :=
  [x12; x34; x09; x00; xc8; x63; x34; x12; x4d; xfa; x28; xff; xff; xcd; xab;
   x90; x01; x7b; xee; xa5].

(** The first sixteen bytes of [frame_temperature_mode]. *)
Definition buffer_16_bytes : list byte :=
  [xaa; x55; x01; x01; x00; x03; x00; x00; x02; x14; x03; x7d; x00; xc8; x00;
   x15].

(** [frame_temperature_mode] answering a turn on/off request (type 3). *)
Definition frame_turn_on_reply : list byte :=
  [xaa; x55; x03; x01; x00; x03; x00; x00; x02; x14; x03; x7d; x00; xc8; x00;
   x15; x00; x00; x00; x77].

(** [frame_temperature_mode] with its checksum byte zeroed. *)
Definition frame_bad_checksum : list byte :=
  [xaa; x55; x01; x01; x00; x03; x00; x00; x02; x14; x03; x7d; x00; xc8; x00;
   x15; x00; x00; x00; x00].

(** The frame that [refresh_status] writes. *)
Definition read_status_frame : list byte :=
  [xaa; x55; x0c; x22; x01; x00; x00; x2f].

Definition heater : VevorDevice.t :=
  {| VevorDevice.name := Some "heater"%string;
     VevorDevice.address := Some "AA:BB:CC:DD:EE:FF"%string;
     VevorDevice.status := None |}.

Definition peer : BLEDevice := {| ble_address := "AA:BB:CC:DD:EE:FF"%string |}.

(** ** Vocabulary for the statements *)

(** The layout of an outgoing frame: header, request type, parameter, a zero
    byte, and a last byte equal to the sum of bytes 2 to 6 modulo 256. *)
Definition command_frame (request_type param : Z) (frame : list byte) : Prop :=
  exists checksum,
    ints frame = [0xAA; 0x55; 0x0C; 0x22; request_type; param; 0x00; checksum]
    /\ checksum = sum (firstn 5 (skipn 2 (ints frame))) mod 256.

(** [response_data] is a validated notification whose request type is byte 4
    of the outgoing frame [data], and [h] is the status decoded from it. *)
Definition answers (data response_data : list byte) (h : VevorHeaterStatus.t)
  : Prop :=
  exists s,
    VevorHeaterStatusBle.from_ble_data_array response_data = Ok (Some s)
    /\ getitem data 4 = Ok (VevorHeaterStatusBle.request_type s)
    /\ VevorHeaterStatus.from_ble_status s = Ok h.

(** The five methods of [VevorDevice] that send one frame. *)
Inductive command : Type :=
| ReadStatus
| SetOperationalMode (mode : OperationalMode)
| SetTarget (target : Z)
| TurnOn
| TurnOff.

Definition frame_of (c : command) : result (list byte) :=
  match c with
  | ReadStatus => VevorDevice.refresh_status_data
  | SetOperationalMode mode => VevorDevice.set_operational_mode_data mode
  | SetTarget target => VevorDevice.set_target_data target
  | TurnOn => VevorDevice.turn_on_data
  | TurnOff => VevorDevice.turn_off_data
  end.

Definition run (c : command) (self : VevorDevice.t) (device : BLEDevice)
    (notifications : list (list byte)) : outcome unit * VevorDevice.t :=
  match c with
  | ReadStatus => VevorDevice.refresh_status self device notifications
  | SetOperationalMode mode =>
      VevorDevice._set_operational_mode self device mode notifications
  | SetTarget target => VevorDevice._set_target self device target notifications
  | TurnOn => VevorDevice.turn_on self device notifications
  | TurnOff => VevorDevice.turn_off self device notifications
  end.

(** ** Further vocabulary: enum values, request types, more sample data *)




(** The member of [RequestType] that names what each sending method asks. *)
Definition request_type_of (c : command) : RequestType :=
  match c with
  | ReadStatus => READ_STATUS
  | SetOperationalMode _ => SET_OP_MODE
  | SetTarget _ => SET_HEATING_INTENSITY
  | TurnOn => TURN_ON_OFF
  | TurnOff => TURN_ON_OFF
  end.

(** The frames that [turn_on] and [turn_off] write. *)
Definition turn_on_frame : list byte :=
  [xaa; x55; x0c; x22; x03; x01; x00; x32].

Definition turn_off_frame : list byte :=
  [xaa; x55; x0c; x22; x03; x00; x00; x31].

(** A device whose address is not the one of [peer]. *)
Definition stranger : BLEDevice := {| ble_address := "11:22:33:44:55:66"%string |}.

(** A running heater reporting three fields out of range at once: error 11,
    operational status 5 and display error 11 (checksum 0x8F is right). *)
Definition frame_three_errors : list byte :=
  [xaa; x55; x01; x01; x0b; x05; x00; x00; x02; x14; x03; x7d; x00; xc8; x00;
   x15; x00; x0b; x00; x8f].

(** [frame_temperature_mode] answering a mode change (type 2) and a target
    change (type 4). *)
Definition frame_mode_reply : list byte :=
  [xaa; x55; x02; x01; x00; x03; x00; x00; x02; x14; x03; x7d; x00; xc8; x00;
   x15; x00; x00; x00; x77].

Definition frame_target_reply : list byte :=
  [xaa; x55; x04; x01; x00; x03; x00; x00; x02; x14; x03; x7d; x00; xc8; x00;
   x15; x00; x00; x00; x77].

(** ** The proof of concept parser of example.py *)

Module Example.








End Example.

(** * Properties *)


(** ** Bytes *)

Lemma int_of_byte_range (b : byte) : 0 <= int_of_byte b < 256.
Proof.
  unfold int_of_byte. pose proof (Byte.to_N_bounded b). lia.
Qed.

Lemma byte_of_int_ok (z : Z) :
  0 <= z <= 255 -> exists b, byte_of_int z = Ok b /\ int_of_byte b = z.
Proof.
  intros Hz. unfold byte_of_int, in_range.
  replace ((0 <=? z) && (z <? 256)) with true by lia.
  destruct (Byte.of_N (Z.to_N z)) as [b|] eqn:E.
  - exists b. split; [reflexivity|].
    apply Byte.to_of_N in E. unfold int_of_byte. rewrite E. lia.
  - apply Byte.of_N_None_iff in E. lia.
Qed.

Lemma byte_of_int_bad (z : Z) :
  ~ 0 <= z <= 255 -> byte_of_int z = Raise ValueError.
Proof.
  intros Hz. unfold byte_of_int, in_range.
  replace ((0 <=? z) && (z <? 256)) with false by lia. reflexivity.
Qed.

(** ** Unpacking *)

Lemma unpack_length (buffer : list byte) :
  length buffer = 20%nat -> exists s, VevorHeaterStatusBle.unpack buffer = Ok s.
Proof.
  intros H.
  do 20 (destruct buffer as [|? buffer]; [discriminate H|]).
  destruct buffer; [|discriminate H].
  eexists; reflexivity.
Qed.

Lemma unpack_bad_length (buffer : list byte) :
  length buffer <> 20%nat ->
  VevorHeaterStatusBle.unpack buffer = Raise StructError.
Proof.
  intros H.
  do 20 (destruct buffer as [|? buffer]; [reflexivity|]).
  destruct buffer; [exfalso; apply H; reflexivity | reflexivity].
Qed.


(** ** Verification *)

Lemma flag_nil (b : bool) (name : string) :
  VevorHeaterStatusBle.flag b name = [] <-> b = false.
Proof. destruct b; simpl; split; intros; congruence. Qed.

Lemma verify_true_iff (s : VevorHeaterStatusBle.t) :
  VevorHeaterStatusBle._verify s = true
  <-> VevorHeaterStatusBle.verification_errors s = [].
Proof.
  unfold VevorHeaterStatusBle._verify.
  destruct (VevorHeaterStatusBle.verification_errors s); split; congruence.
Qed.

(** What a verified frame of a heater that is not off satisfies.  The request
    type is only known to be positive. *)
Lemma verified_ranges (s : VevorHeaterStatusBle.t) :
  VevorHeaterStatusBle._verify s = true ->
  VevorHeaterStatusBle.power_status s <> 0 ->
  0 < VevorHeaterStatusBle.request_type s
  /\ 1 <= VevorHeaterStatusBle.power_status s <= 2
  /\ 0 <= VevorHeaterStatusBle.error s <= 10
  /\ 0 <= VevorHeaterStatusBle.operational_status s <= 4
  /\ ((VevorHeaterStatusBle.operational_mode s = 0
       /\ VevorHeaterStatusBle.target_temperature_or_level s = 0)
      \/ (VevorHeaterStatusBle.operational_mode s = 1
          /\ 1 <= VevorHeaterStatusBle.target_temperature_or_level s <= 10)
      \/ (VevorHeaterStatusBle.operational_mode s = 2
          /\ 8 <= VevorHeaterStatusBle.target_temperature_or_level s <= 36
          /\ 0 <= VevorHeaterStatusBle.current_power_level s <= 9))
  /\ 0 <= VevorHeaterStatusBle.display_error s <= 10
  /\ VevorHeaterStatusBle.calculated_checksum s = VevorHeaterStatusBle.checksum s.
Proof.
  intros Hv Hp. apply verify_true_iff in Hv.
  unfold VevorHeaterStatusBle.verification_errors in Hv.
  replace (negb (VevorHeaterStatusBle.power_status s =? 0)) with true in Hv by lia.
  apply app_eq_nil in Hv. destruct Hv as [Hr Hc].
  apply flag_nil in Hc.
  unfold VevorHeaterStatusBle.range_errors in Hr.
  repeat (apply app_eq_nil in Hr; let H := fresh "F" in destruct Hr as [H Hr]).
  apply flag_nil in F, F0, F1, F2, F4, Hr.
  unfold VevorHeaterStatusBle.request_type_test, in_range in *.
  unfold VevorHeaterStatusBle.operational_mode_errors,
    VevorHeaterStatusBle.allowed_target_range in F3.
  destruct (VevorHeaterStatusBle.operational_mode s =? 1) eqn:M1;
  destruct (VevorHeaterStatusBle.operational_mode s =? 2) eqn:M2;
  destruct (VevorHeaterStatusBle.operational_mode s =? 0) eqn:M0;
  simpl in F3; try discriminate F3; apply flag_nil in F3;
  unfold in_range in F3; simpl in F; lia.
Qed.

(** ** Decoding status frames *)

(** C4: a frame with power status 0 whose checksum byte verifies is accepted
    whatever its other bytes hold (no range test contributes an error), and it
    converts to the Off sentinel: power status OFF, every other field unset. *)
Theorem off_frame_decodes_to_off_sentinel :
  forall (buffer : list byte) (s : VevorHeaterStatusBle.t),
    VevorHeaterStatusBle.unpack buffer = Ok s ->
    VevorHeaterStatusBle.power_status s = 0 ->
    VevorHeaterStatusBle.calculated_checksum s = VevorHeaterStatusBle.checksum s ->
    VevorHeaterStatusBle.verification_errors s = []
    /\ VevorHeaterStatusBle.from_ble_data_array buffer = Ok (Some s)
    /\ VevorHeaterStatus.from_ble_status s = Ok VevorHeaterStatus.off_status
    /\ VevorHeaterStatus.off_status
       = VevorHeaterStatus.mk (Some OFF) None None None None None None None
                              None None None.
Proof.
  intros buffer s Hu Hp Hc.
  assert (E : VevorHeaterStatusBle.verification_errors s = []).
  { unfold VevorHeaterStatusBle.verification_errors.
    rewrite Hp, Hc. simpl. rewrite Z.eqb_refl. reflexivity. }
  split; [exact E|]. split; [|split].
  - unfold VevorHeaterStatusBle.from_ble_data_array. rewrite Hu. simpl.
    apply verify_true_iff in E. rewrite E. reflexivity.
  - unfold VevorHeaterStatus.from_ble_status. rewrite Hp. reflexivity.
  - reflexivity.
Qed.

Lemma off_frame_decodes_to_off_sentinel_witness :
  exists s,
    VevorHeaterStatusBle.unpack frame_off_stale = Ok s
    /\ VevorHeaterStatusBle.error s = 200
    /\ VevorHeaterStatusBle.operational_mode s = 77
    /\ VevorHeaterStatusBle.from_ble_data_array frame_off_stale = Ok (Some s)
    /\ VevorHeaterStatus.from_ble_status s = Ok VevorHeaterStatus.off_status.
Proof.
  eexists. split; [reflexivity|]. split; [reflexivity|]. split; [reflexivity|].
  destruct (off_frame_decodes_to_off_sentinel frame_off_stale _
              eq_refl eq_refl eq_refl) as (_ & H1 & H2 & _).
  split; [exact H1 | exact H2].
Defined.

(** C5: whenever the checksum byte of a frame differs from the sum of power
    status, error, operational status, elevation, operational mode, target,
    current power level, input voltage, combustion temperature, room
    temperature and display error modulo 256, the frame is rejected, also when
    its power status is 0; the checksum error is the last one recorded. *)
Theorem checksum_mismatch_rejected :
  forall (buffer : list byte) (s : VevorHeaterStatusBle.t),
    VevorHeaterStatusBle.unpack buffer = Ok s ->
    (VevorHeaterStatusBle.power_status s
     + VevorHeaterStatusBle.error s
     + VevorHeaterStatusBle.operational_status s
     + VevorHeaterStatusBle.elevation s
     + VevorHeaterStatusBle.operational_mode s
     + VevorHeaterStatusBle.target_temperature_or_level s
     + VevorHeaterStatusBle.current_power_level s
     + VevorHeaterStatusBle.input_voltage_decivolts s
     + VevorHeaterStatusBle.combustion_temperature s
     + VevorHeaterStatusBle.room_temperature s
     + VevorHeaterStatusBle.display_error s) mod 256
    <> VevorHeaterStatusBle.checksum s ->
    (exists earlier,
        VevorHeaterStatusBle.verification_errors s
        = earlier ++ ["checksum"%string])
    /\ VevorHeaterStatusBle._verify s = false
    /\ VevorHeaterStatusBle.from_ble_data_array buffer = Ok None.
Proof.
  intros buffer s Hu Hc.
  assert (Hk : (VevorHeaterStatusBle.calculated_checksum s
                =? VevorHeaterStatusBle.checksum s) = false).
  { apply Z.eqb_neq. intros E. apply Hc. rewrite <- E.
    unfold VevorHeaterStatusBle.calculated_checksum, sum. simpl.
    reflexivity. }
  assert (He : exists earlier,
             VevorHeaterStatusBle.verification_errors s
             = earlier ++ ["checksum"%string]).
  { unfold VevorHeaterStatusBle.verification_errors. rewrite Hk. simpl.
    eexists; reflexivity. }
  assert (Hv : VevorHeaterStatusBle._verify s = false).
  { destruct He as [earlier He]. unfold VevorHeaterStatusBle._verify.
    rewrite He. destruct earlier; reflexivity. }
  split; [exact He|]. split; [exact Hv|].
  unfold VevorHeaterStatusBle.from_ble_data_array. rewrite Hu. simpl.
  rewrite Hv. reflexivity.
Qed.

Lemma checksum_mismatch_rejected_witness :
  VevorHeaterStatusBle.from_ble_data_array frame_bad_checksum = Ok None.
Proof.
  assert (Hc : 375 mod 256 <> 0) by (vm_compute; discriminate).
  destruct (checksum_mismatch_rejected frame_bad_checksum _ eq_refl Hc)
    as (_ & _ & H).
  exact H.
Defined.

(** C6 as stated fails: a buffer of sixteen bytes is turned down for its
    length, by an exception and not by a returned failure, and a buffer whose
    length is not sixteen (twenty bytes) is decoded. *)
Lemma sixteen_bytes_raise_twenty_decode :
  length buffer_16_bytes = 16%nat
  /\ VevorHeaterStatusBle.from_ble_data_array buffer_16_bytes = Raise StructError
  /\ length frame_temperature_mode <> 16%nat
  /\ exists s,
       VevorHeaterStatusBle.from_ble_data_array frame_temperature_mode
       = Ok (Some s).
Proof.
  split; [reflexivity|]. split; [reflexivity|]. split; [discriminate|].
  eexists; reflexivity.
Qed.

(** C6, amended: the length that decoding insists on is 20 bytes, the size of
    the unpack format.  A buffer of any other length makes unpacking raise
    struct.error (nothing is returned); a buffer of 20 bytes always unpacks,
    so it is accepted or refused by verification alone. *)
Theorem from_ble_data_array_length :
  forall buffer : list byte,
    (length buffer <> 20%nat ->
     VevorHeaterStatusBle.from_ble_data_array buffer = Raise StructError)
    /\ (length buffer = 20%nat ->
        exists s,
          VevorHeaterStatusBle.unpack buffer = Ok s
          /\ VevorHeaterStatusBle.from_ble_data_array buffer
             = Ok (if VevorHeaterStatusBle._verify s then Some s else None)).
Proof.
  intros buffer. split; intros H.
  - unfold VevorHeaterStatusBle.from_ble_data_array.
    rewrite (unpack_bad_length buffer H). reflexivity.
  - destruct (unpack_length buffer H) as [s Hs]. exists s. split; [exact Hs|].
    unfold VevorHeaterStatusBle.from_ble_data_array. rewrite Hs. simpl.
    destruct (VevorHeaterStatusBle._verify s); reflexivity.
Qed.

Lemma from_ble_data_array_length_witness :
  VevorHeaterStatusBle.from_ble_data_array buffer_16_bytes = Raise StructError
  /\ exists s,
       VevorHeaterStatusBle.unpack frame_bad_checksum = Ok s
       /\ VevorHeaterStatusBle.from_ble_data_array frame_bad_checksum
          = Ok (if VevorHeaterStatusBle._verify s then Some s else None).
Proof.
  split.
  - apply (proj1 (from_ble_data_array_length buffer_16_bytes)).
    simpl. discriminate.
  - apply (proj2 (from_ble_data_array_length frame_bad_checksum)).
    reflexivity.
Defined.

(** ** Conversion to the domain status *)

(** The comparison on line 76 is between the enum class and one of its
    members, so the branch that adds one is never taken. *)
Lemma class_is_not_member (m : OperationalMode) :
  object_eqb OperationalMode_class (OperationalMode_member m) = false.
Proof. reflexivity. Qed.

(** Conversion of a frame that is not off, given that the enum constructors
    succeed: every field written out. *)
Lemma from_ble_status_on (s : VevorHeaterStatusBle.t) (h : VevorHeaterStatus.t) :
  VevorHeaterStatusBle.power_status s <> 0 ->
  VevorHeaterStatus.from_ble_status s = Ok h ->
  VevorHeaterStatus.current_power_level h
  = Some (VevorHeaterStatusBle.target_temperature_or_level s)
  /\ VevorHeaterStatus.target_temperature h
     = (if opmode_is (VevorHeaterStatus.operational_mode h) TARGET_TEMPERATURE
        then Some (VevorHeaterStatusBle.target_temperature_or_level s)
        else None)
  /\ VevorHeaterStatus.target_power_level h
     = (if opmode_is (VevorHeaterStatus.operational_mode h) POWER_LEVEL
        then Some (VevorHeaterStatusBle.target_temperature_or_level s)
        else None)
  /\ (if VevorHeaterStatusBle.operational_mode s =? 0
      then Ok None
      else m <- OperationalMode_of (VevorHeaterStatusBle.operational_mode s) ;;
           Ok (Some m))
     = Ok (VevorHeaterStatus.operational_mode h).
Proof.
  intros Hp H. unfold VevorHeaterStatus.from_ble_status in H.
  replace (VevorHeaterStatusBle.power_status s =? 0) with false in H by lia.
  destruct (if VevorHeaterStatusBle.operational_mode s =? 0
            then Ok None
            else m <- OperationalMode_of (VevorHeaterStatusBle.operational_mode s) ;;
                 Ok (Some m)) as [opmode|e]; [|discriminate H].
  simpl in H.
  destruct (PowerStatus_of (VevorHeaterStatusBle.power_status s));
    [|discriminate H].
  destruct (OperationalStatus_of (VevorHeaterStatusBle.operational_status s));
    [|discriminate H].
  simpl in H.
  destruct (if VevorHeaterStatusBle.display_error s =? 0
            then Ok NO_ERROR
            else HeaterError_of (VevorHeaterStatusBle.display_error s));
    [|discriminate H].
  simpl in H. injection H as <-. simpl. repeat split.
Qed.

(** C2: at the frame of a running heater in target temperature mode with raw
    current power level 3 and target 20, the decoded current power level is
    the target, 20, and not the raw level plus one; in power level mode
    (target 7) it is 7, as is the target power level. *)
Theorem current_power_level_is_target_in_temperature_mode :
  exists s h p k,
    VevorHeaterStatusBle.from_ble_data_array frame_temperature_mode = Ok (Some s)
    /\ VevorHeaterStatusBle.operational_mode s = 2
    /\ VevorHeaterStatusBle.current_power_level s = 3
    /\ VevorHeaterStatusBle.target_temperature_or_level s = 20
    /\ VevorHeaterStatus.from_ble_status s = Ok h
    /\ VevorHeaterStatus.operational_mode h = Some TARGET_TEMPERATURE
    /\ VevorHeaterStatus.current_power_level h = Some 20
    /\ VevorHeaterStatus.current_power_level h <> Some (3 + 1)
    /\ VevorHeaterStatusBle.from_ble_data_array frame_power_level_mode
       = Ok (Some p)
    /\ VevorHeaterStatusBle.target_temperature_or_level p = 7
    /\ VevorHeaterStatus.from_ble_status p = Ok k
    /\ VevorHeaterStatus.current_power_level k = Some 7
    /\ VevorHeaterStatus.target_power_level k = Some 7.
Proof.
  do 4 eexists.
  repeat match goal with |- _ /\ _ => split end;
    try reflexivity.
  simpl. discriminate.
Qed.

(** C3: the frame of a running heater with request type 5, every other field
    in range and the checksum right, passes verification without any error
    recorded and is returned; with request type 0 the same frame is refused
    with the request type named. *)
Theorem request_type_5_is_accepted :
  exists s z,
    VevorHeaterStatusBle.unpack frame_request_type_5 = Ok s
    /\ VevorHeaterStatusBle.request_type s = 5
    /\ VevorHeaterStatusBle.power_status s = 1
    /\ VevorHeaterStatusBle.verification_errors s = []
    /\ VevorHeaterStatusBle.from_ble_data_array frame_request_type_5
       = Ok (Some s)
    /\ VevorHeaterStatusBle.unpack frame_request_type_0 = Ok z
    /\ VevorHeaterStatusBle.verification_errors z = ["request_type"%string]
    /\ VevorHeaterStatusBle.from_ble_data_array frame_request_type_0 = Ok None.
Proof.
  do 2 eexists.
  repeat match goal with |- _ /\ _ => split end; reflexivity.
Qed.

(** The request type test fires on non positive values only. *)
Lemma request_type_test_iff (s : VevorHeaterStatusBle.t) :
  VevorHeaterStatusBle.request_type_test s = true
  <-> VevorHeaterStatusBle.request_type s <= 0.
Proof.
  unfold VevorHeaterStatusBle.request_type_test, in_range. simpl. lia.
Qed.

(** C8 as stated fails: a verified frame of a running heater with operational
    mode 0 decodes to a status with neither target populated. *)
Lemma mode_unset_populates_no_target :
  exists s h,
    VevorHeaterStatusBle.from_ble_data_array frame_mode_unset = Ok (Some s)
    /\ VevorHeaterStatusBle.power_status s = 1
    /\ VevorHeaterStatus.from_ble_status s = Ok h
    /\ VevorHeaterStatus.power_status h = Some RUNNING
    /\ VevorHeaterStatus.target_temperature h = None
    /\ VevorHeaterStatus.target_power_level h = None.
Proof.
  do 2 eexists.
  repeat match goal with |- _ /\ _ => split end; reflexivity.
Qed.

(** C8, amended: in the status decoded from a verified frame that is not off,
    the operational mode decides which target is populated: the target
    temperature alone, within 8..36, in target temperature mode; the target
    power level alone, within 1..10, in power level mode; neither of them when
    the frame carries operational mode 0.  Never both. *)
Theorem target_populated_per_mode :
  forall (s : VevorHeaterStatusBle.t) (h : VevorHeaterStatus.t),
    VevorHeaterStatusBle._verify s = true ->
    VevorHeaterStatusBle.power_status s <> 0 ->
    VevorHeaterStatus.from_ble_status s = Ok h ->
    (VevorHeaterStatusBle.operational_mode s = 2
     /\ VevorHeaterStatus.operational_mode h = Some TARGET_TEMPERATURE
     /\ (exists t, VevorHeaterStatus.target_temperature h = Some t
                   /\ 8 <= t <= 36)
     /\ VevorHeaterStatus.target_power_level h = None)
    \/ (VevorHeaterStatusBle.operational_mode s = 1
        /\ VevorHeaterStatus.operational_mode h = Some POWER_LEVEL
        /\ (exists l, VevorHeaterStatus.target_power_level h = Some l
                      /\ 1 <= l <= 10)
        /\ VevorHeaterStatus.target_temperature h = None)
    \/ (VevorHeaterStatusBle.operational_mode s = 0
        /\ VevorHeaterStatus.operational_mode h = None
        /\ VevorHeaterStatus.target_temperature h = None
        /\ VevorHeaterStatus.target_power_level h = None).
Proof.
  intros s h Hv Hp Hh.
  destruct (verified_ranges s Hv Hp) as (_ & _ & _ & _ & Hm & _).
  destruct (from_ble_status_on s h Hp Hh) as (_ & Ht & Hl & Ho).
  destruct Hm as [[M T] | [[M T] | (M & T & _)]]; rewrite M in Ho; simpl in Ho;
    injection Ho as Ho; rewrite <- Ho in Ht, Hl; simpl in Ht, Hl.
  - right. right. repeat split; congruence.
  - right. left. repeat split; try congruence.
    eexists; split; [exact Hl | exact T].
  - left. repeat split; try congruence.
    eexists; split; [exact Ht | exact T].
Qed.

Lemma target_populated_per_mode_witness :
  exists s h,
    VevorHeaterStatusBle.unpack frame_temperature_mode = Ok s
    /\ VevorHeaterStatus.from_ble_status s = Ok h
    /\ VevorHeaterStatus.target_temperature h = Some 20
    /\ ((VevorHeaterStatusBle.operational_mode s = 2
         /\ VevorHeaterStatus.operational_mode h = Some TARGET_TEMPERATURE
         /\ (exists t, VevorHeaterStatus.target_temperature h = Some t
                       /\ 8 <= t <= 36)
         /\ VevorHeaterStatus.target_power_level h = None)
        \/ (VevorHeaterStatusBle.operational_mode s = 1
            /\ VevorHeaterStatus.operational_mode h = Some POWER_LEVEL
            /\ (exists l, VevorHeaterStatus.target_power_level h = Some l
                          /\ 1 <= l <= 10)
            /\ VevorHeaterStatus.target_temperature h = None)
        \/ (VevorHeaterStatusBle.operational_mode s = 0
            /\ VevorHeaterStatus.operational_mode h = None
            /\ VevorHeaterStatus.target_temperature h = None
            /\ VevorHeaterStatus.target_power_level h = None)).
Proof.
  do 2 eexists. split; [reflexivity|]. split; [reflexivity|].
  split; [reflexivity|].
  apply target_populated_per_mode;
    [reflexivity | vm_compute; discriminate | reflexivity].
Defined.

(** The enum constructors succeed on the ranges that verification enforces. *)
Lemma PowerStatus_of_total (v : Z) :
  0 <= v <= 2 -> exists p, PowerStatus_of v = Ok p.
Proof.
  intros H. assert (E : v = 0 \/ v = 1 \/ v = 2) by lia.
  repeat (destruct E as [->|E]); subst; eexists; reflexivity.
Qed.

Lemma OperationalStatus_of_total (v : Z) :
  0 <= v <= 4 -> exists o, OperationalStatus_of v = Ok o.
Proof.
  intros H. assert (E : v = 0 \/ v = 1 \/ v = 2 \/ v = 3 \/ v = 4) by lia.
  repeat (destruct E as [->|E]); subst; eexists; reflexivity.
Qed.

Lemma OperationalMode_of_total (v : Z) :
  1 <= v <= 2 -> exists m, OperationalMode_of v = Ok m.
Proof.
  intros H. assert (E : v = 1 \/ v = 2) by lia.
  destruct E as [->| ->]; eexists; reflexivity.
Qed.

Lemma HeaterError_of_total (v : Z) :
  0 <= v <= 10 -> exists e, HeaterError_of v = Ok e.
Proof.
  intros H.
  assert (E : v = 0 \/ v = 1 \/ v = 2 \/ v = 3 \/ v = 4 \/ v = 5 \/ v = 6
              \/ v = 7 \/ v = 8 \/ v = 9 \/ v = 10) by lia.
  repeat (destruct E as [->|E]); subst; eexists; reflexivity.
Qed.

(** Conversion of a verified frame returns. *)
Lemma from_ble_status_total_on_verified_aux (s : VevorHeaterStatusBle.t) :
  VevorHeaterStatusBle._verify s = true ->
  exists h, VevorHeaterStatus.from_ble_status s = Ok h.
Proof.
  intros Hv. unfold VevorHeaterStatus.from_ble_status.
  destruct (VevorHeaterStatusBle.power_status s =? 0) eqn:P;
    [eexists; reflexivity|].
  assert (Hp : VevorHeaterStatusBle.power_status s <> 0) by lia.
  destruct (verified_ranges s Hv Hp) as (_ & Rp & _ & Ro & Rm & Rd & _).
  assert (Rp' : 0 <= VevorHeaterStatusBle.power_status s <= 2) by lia.
  destruct (PowerStatus_of_total _ Rp') as [p Ep].
  destruct (OperationalStatus_of_total _ Ro) as [o Eo].
  destruct (HeaterError_of_total _ Rd) as [e Ee].
  rewrite Ep, Eo.
  destruct Rm as [[M _] | [[M _] | (M & _)]]; rewrite M; simpl;
    (destruct (VevorHeaterStatusBle.display_error s =? 0);
     [|rewrite Ee]; simpl; eexists; reflexivity).
Qed.

(** C10: converting a frame that passed verification never raises.  For a
    frame that is not off, the constructors of PowerStatus,
    OperationalStatus and HeaterError succeed on its fields and give the
    fields of the status, an operational mode of 1 or 2 converts to the
    corresponding member, and an operational mode of 0 leaves the mode and
    both targets unset. *)
Theorem from_ble_status_total_on_verified :
  forall s : VevorHeaterStatusBle.t,
    VevorHeaterStatusBle._verify s = true ->
    exists h,
      VevorHeaterStatus.from_ble_status s = Ok h
      /\ (VevorHeaterStatusBle.power_status s <> 0 ->
          (exists p,
              PowerStatus_of (VevorHeaterStatusBle.power_status s) = Ok p
              /\ VevorHeaterStatus.power_status h = Some p)
          /\ (exists o,
                 OperationalStatus_of (VevorHeaterStatusBle.operational_status s)
                 = Ok o
                 /\ VevorHeaterStatus.operational_status h = Some o)
          /\ (exists e,
                 HeaterError_of (VevorHeaterStatusBle.display_error s) = Ok e
                 /\ VevorHeaterStatus.error h = Some e)
          /\ (VevorHeaterStatusBle.operational_mode s <> 0 ->
              exists m,
                OperationalMode_of (VevorHeaterStatusBle.operational_mode s)
                = Ok m
                /\ OperationalMode_value m
                   = VevorHeaterStatusBle.operational_mode s
                /\ VevorHeaterStatus.operational_mode h = Some m)
          /\ (VevorHeaterStatusBle.operational_mode s = 0 ->
              VevorHeaterStatus.operational_mode h = None
              /\ VevorHeaterStatus.target_temperature h = None
              /\ VevorHeaterStatus.target_power_level h = None)).
Proof.
  intros s Hv.
  destruct (Z.eq_dec (VevorHeaterStatusBle.power_status s) 0) as [Hp|Hp].
  - exists VevorHeaterStatus.off_status. split; [|contradiction].
    unfold VevorHeaterStatus.from_ble_status. rewrite Hp. reflexivity.
  - destruct (verified_ranges s Hv Hp) as (_ & Rp & _ & Ro & Rm & Rd & _).
    assert (Rp' : 0 <= VevorHeaterStatusBle.power_status s <= 2) by lia.
    destruct (PowerStatus_of_total _ Rp') as [p Ep].
    destruct (OperationalStatus_of_total _ Ro) as [o Eo].
    destruct (HeaterError_of_total _ Rd) as [e Ee].
    assert (Ee' : (if VevorHeaterStatusBle.display_error s =? 0
                   then Ok NO_ERROR
                   else HeaterError_of (VevorHeaterStatusBle.display_error s))
                  = Ok e).
    { destruct (VevorHeaterStatusBle.display_error s =? 0) eqn:D; [|exact Ee].
      apply Z.eqb_eq in D. rewrite D in Ee. exact Ee. }
    assert (Em : exists om,
               (if VevorHeaterStatusBle.operational_mode s =? 0
                then Ok None
                else m <- OperationalMode_of
                            (VevorHeaterStatusBle.operational_mode s) ;;
                     Ok (Some m)) = Ok om
               /\ (VevorHeaterStatusBle.operational_mode s = 0 -> om = None)
               /\ (VevorHeaterStatusBle.operational_mode s <> 0 ->
                   exists m,
                     OperationalMode_of (VevorHeaterStatusBle.operational_mode s)
                     = Ok m
                     /\ OperationalMode_value m
                        = VevorHeaterStatusBle.operational_mode s
                     /\ om = Some m)).
    { destruct Rm as [[M _] | [[M _] | (M & _)]]; rewrite M; simpl.
      - exists None. repeat split; congruence.
      - exists (Some POWER_LEVEL). split; [reflexivity|]. split; [discriminate|].
        intros _. exists POWER_LEVEL. repeat split.
      - exists (Some TARGET_TEMPERATURE). split; [reflexivity|].
        split; [discriminate|].
        intros _. exists TARGET_TEMPERATURE. repeat split. }
    destruct Em as (om & Eom & Om0 & Om12).
    eexists. split.
    + unfold VevorHeaterStatus.from_ble_status.
      replace (VevorHeaterStatusBle.power_status s =? 0) with false by lia.
      rewrite Eom. simpl. rewrite Ep, Eo. simpl. rewrite Ee'. simpl.
      reflexivity.
    + intros _. simpl. split; [exists p; split; [exact Ep | reflexivity]|].
      split; [exists o; split; [exact Eo | reflexivity]|].
      split; [exists e; split; [exact Ee | reflexivity]|].
      split; [exact Om12|].
      intros M. rewrite (Om0 M). repeat split.
Qed.

Lemma from_ble_status_total_on_verified_witness :
  exists s,
    VevorHeaterStatusBle.unpack frame_mode_unset = Ok s
    /\ exists h, VevorHeaterStatus.from_ble_status s = Ok h.
Proof.
  eexists. split; [reflexivity|].
  destruct (from_ble_status_total_on_verified _
              (eq_refl : VevorHeaterStatusBle._verify
                           (VevorHeaterStatusBle.mk 21930 1 1 0 3 0 0 0 3 125
                                                    200 21 0 97) = true))
    as (h & Hh & _).
  exists h. exact Hh.
Defined.

(** ** Outgoing frames *)

Lemma bytearray_ok (l : list Z) (bs : list byte) :
  Forall2 (fun z b => byte_of_int z = Ok b) l bs -> bytearray l = Ok bs.
Proof.
  induction 1 as [|z b l bs Hz _ IH]; simpl.
  - reflexivity.
  - rewrite Hz, IH. reflexivity.
Qed.

(** The frame built around request type [rt] (a constant of the source) and
    a parameter byte: the checksum written over the last byte is the sum of
    bytes 2 to 6. *)
Lemma built_frame (rt : Z) (r : byte) (param : Z) :
  byte_of_int rt = Ok r ->
  int_of_byte r = rt ->
  0 <= param <= 255 ->
  exists frame,
    (data <- bytearray [0xAA; 0x55; 0x0C; 0x22; rt; param; 0x00; 0x00] ;;
     setitem_last data (sum (ints (skipn 2 data)) mod 256)) = Ok frame
    /\ command_frame rt param frame.
Proof.
  intros Hr Hrt Hp.
  destruct (byte_of_int_ok param Hp) as (b & Hb & Eb).
  assert (Hc : 0 <= (0x0C + 0x22 + rt + param) mod 256 <= 255).
  { pose proof (Z.mod_pos_bound (0x0C + 0x22 + rt + param) 256). lia. }
  destruct (byte_of_int_ok _ Hc) as (c & Hcb & Ec).
  exists [xaa; x55; x0c; x22; r; b; x00; c]. split.
  - rewrite (bytearray_ok _ [xaa; x55; x0c; x22; r; b; x00; x00]).
    + unfold bind, setitem_last. cbv beta iota.
      replace (sum (ints (skipn 2 [xaa; x55; x0c; x22; r; b; x00; x00])) mod 256)
        with ((0x0C + 0x22 + rt + param) mod 256).
      * rewrite Hcb. reflexivity.
      * unfold sum, ints. simpl. rewrite Hrt, Eb.
        change (int_of_byte x0c) with 12. change (int_of_byte x22) with 34.
        change (int_of_byte x00) with 0. f_equal. lia.
    + repeat constructor; assumption.
  - exists (int_of_byte c). unfold ints. simpl. rewrite Hrt, Eb. split.
    + reflexivity.
    + rewrite Ec. unfold sum. simpl.
      change (int_of_byte x0c) with 12. change (int_of_byte x22) with 34.
      change (int_of_byte x00) with 0. f_equal. lia.
Qed.

(** C7: every frame that the device methods build or write is the 8 byte
    sequence AA 55 0C 22, request type, parameter, 00, checksum, the checksum
    being the sum of bytes 2 to 6 modulo 256: for both operational modes
    (request type 2), for every target from 0 to 255 (request type 4), and
    for the three literal frames of turn on, turn off and status read. *)
Theorem command_frames_well_formed :
  (forall mode : OperationalMode,
      exists frame,
        VevorDevice.set_operational_mode_data mode = Ok frame
        /\ command_frame 2 (OperationalMode_value mode) frame)
  /\ (forall target : Z,
         0 <= target <= 255 ->
         exists frame,
           VevorDevice.set_target_data target = Ok frame
           /\ command_frame 4 target frame)
  /\ (VevorDevice.turn_on_data = Ok [xaa; x55; x0c; x22; x03; x01; x00; x32]
      /\ ints [xaa; x55; x0c; x22; x03; x01; x00; x32]
         = [0xAA; 0x55; 0x0C; 0x22; 0x03; 0x01; 0x00; 0x32]
      /\ command_frame 3 1 [xaa; x55; x0c; x22; x03; x01; x00; x32])
  /\ (VevorDevice.turn_off_data = Ok [xaa; x55; x0c; x22; x03; x00; x00; x31]
      /\ ints [xaa; x55; x0c; x22; x03; x00; x00; x31]
         = [0xAA; 0x55; 0x0C; 0x22; 0x03; 0x00; 0x00; 0x31]
      /\ command_frame 3 0 [xaa; x55; x0c; x22; x03; x00; x00; x31])
  /\ (VevorDevice.refresh_status_data
      = Ok [xaa; x55; x0c; x22; x01; x00; x00; x2f]
      /\ ints [xaa; x55; x0c; x22; x01; x00; x00; x2f]
         = [0xAA; 0x55; 0x0C; 0x22; 0x01; 0x00; 0x00; 0x2F]
      /\ command_frame 1 0 [xaa; x55; x0c; x22; x01; x00; x00; x2f]).
Proof.
  split; [|split; [|split; [|split]]].
  - intros mode. unfold VevorDevice.set_operational_mode_data.
    apply (built_frame 2 x02); [reflexivity | reflexivity |].
    destruct mode; simpl; lia.
  - intros target Ht. unfold VevorDevice.set_target_data.
    apply (built_frame 4 x04); [reflexivity | reflexivity | exact Ht].
  - split; [reflexivity|]. split; [reflexivity|].
    eexists; split; reflexivity.
  - split; [reflexivity|]. split; [reflexivity|].
    eexists; split; reflexivity.
  - split; [reflexivity|]. split; [reflexivity|].
    eexists; split; reflexivity.
Qed.

Lemma command_frames_well_formed_witness :
  exists frame,
    VevorDevice.set_target_data 20 = Ok frame /\ command_frame 4 20 frame.
Proof.
  destruct command_frames_well_formed as (_ & H & _).
  apply (H 20). lia.
Defined.

(** A target outside 0..255 does not fit a byte: no frame is built. *)
Lemma set_target_data_out_of_range (target : Z) :
  ~ 0 <= target <= 255 -> VevorDevice.set_target_data target = Raise ValueError.
Proof.
  intros H. unfold VevorDevice.set_target_data. simpl.
  rewrite (byte_of_int_bad target H). reflexivity.
Qed.

(** ** The notification handler *)

Lemma from_ble_data_array_some (n : list byte) (s : VevorHeaterStatusBle.t) :
  VevorHeaterStatusBle.from_ble_data_array n = Ok (Some s) ->
  VevorHeaterStatusBle.unpack n = Ok s /\ VevorHeaterStatusBle._verify s = true.
Proof.
  unfold VevorHeaterStatusBle.from_ble_data_array.
  destruct (VevorHeaterStatusBle.unpack n) as [u|e]; simpl; [|discriminate].
  destruct (VevorHeaterStatusBle._verify u) eqn:V; intros H; [|discriminate H].
  injection H as <-. split; [reflexivity | exact V].
Qed.

Lemma answers_functional (data n : list byte) (h h' : VevorHeaterStatus.t) :
  answers data n h -> answers data n h' -> h = h'.
Proof.
  intros (s & Hs & _ & Hh) (s' & Hs' & _ & Hh'). congruence.
Qed.

Lemma answers_dec (data n : list byte) :
  (exists h, answers data n h) \/ (forall h, ~ answers data n h).
Proof.
  unfold answers.
  destruct (VevorHeaterStatusBle.from_ble_data_array n) as [[s|]|e] eqn:F;
    [| right; intros h (s' & Hs & _); discriminate Hs
     | right; intros h (s' & Hs & _); discriminate Hs].
  destruct (getitem data 4) as [d4|e] eqn:G;
    [| right; intros h (s' & _ & Hg & _); discriminate Hg].
  destruct (Z.eq_dec (VevorHeaterStatusBle.request_type s) d4) as [E|E].
  - destruct (VevorHeaterStatus.from_ble_status s) as [h|e] eqn:C.
    + left. exists h, s. subst d4. repeat split; assumption.
    + right. intros h (s' & Hs & _ & Hh). congruence.
  - right. intros h (s' & Hs & Hg & _). congruence.
Qed.

(** An answer is stored and sets the latch. *)
Lemma deliver_answer (data n : list byte) (h : VevorHeaterStatus.t)
    (st : handler_state) :
  answers data n h ->
  deliver data st n = {| response := Some h; response_received_latch := true |}.
Proof.
  intros (s & Hs & Hg & Hh). unfold deliver, notification_handler.
  rewrite Hs. simpl. rewrite Hg. simpl. rewrite Z.eqb_refl. simpl.
  rewrite Hh. reflexivity.
Qed.

(** Anything else leaves the stored response as it was. *)
Lemma deliver_other_response (data n : list byte) (st : handler_state) :
  (forall h, ~ answers data n h) ->
  response (deliver data st n) = response st.
Proof.
  intros Hn. unfold deliver, notification_handler.
  destruct (VevorHeaterStatusBle.from_ble_data_array n) as [[s|]|e] eqn:F;
    simpl; try reflexivity.
  destruct (getitem data 4) as [d4|e] eqn:G; simpl; [|reflexivity].
  destruct (VevorHeaterStatusBle.request_type s =? d4) eqn:E; simpl;
    [|reflexivity].
  destruct (VevorHeaterStatus.from_ble_status s) as [h|e] eqn:C; simpl;
    [|reflexivity].
  exfalso. apply (Hn h). exists s. apply Z.eqb_eq in E. subst d4.
  repeat split; assumption.
Qed.

(** A notification of the wrong size makes the callback raise: nothing is
    stored and the latch is not set. *)
Lemma deliver_bad_length (data n : list byte) (st : handler_state) :
  length n <> 20%nat -> deliver data st n = st.
Proof.
  intros H. unfold deliver, notification_handler,
    VevorHeaterStatusBle.from_ble_data_array.
  rewrite (unpack_bad_length n H). reflexivity.
Qed.

(** A notification of 20 bytes sets the latch, whether or not it is kept. *)
Lemma deliver_sets_latch (data n : list byte) (rt : Z) (st : handler_state) :
  getitem data 4 = Ok rt ->
  length n = 20%nat ->
  response_received_latch (deliver data st n) = true.
Proof.
  intros Hg Hl. destruct (answers_dec data n) as [[h Hh]|Hn].
  - rewrite (deliver_answer data n h st Hh). reflexivity.
  - destruct (unpack_length n Hl) as [s Hs].
    unfold deliver, notification_handler,
      VevorHeaterStatusBle.from_ble_data_array.
    rewrite Hs. simpl.
    destruct (VevorHeaterStatusBle._verify s) eqn:V; simpl; [|reflexivity].
    rewrite Hg. simpl.
    destruct (VevorHeaterStatusBle.request_type s =? rt) eqn:E; simpl;
      [|reflexivity].
    destruct (from_ble_status_total_on_verified_aux s V) as [h Hh].
    rewrite Hh. reflexivity.
Qed.

(** ** The session *)

(** The response held after a run of notifications: the status of the last
    answer among them, or nothing when none of them answers. *)
Lemma response_after (data : list byte) (ns : list (list byte)) :
  match response (fold_left (deliver data) ns handler_init) with
  | Some h =>
      exists pre n post,
        ns = pre ++ n :: post
        /\ answers data n h
        /\ (forall m h', In m post -> ~ answers data m h')
  | None => forall n h, In n ns -> ~ answers data n h
  end.
Proof.
  induction ns as [|x l IH] using rev_ind.
  - simpl. intros n h [].
  - rewrite fold_left_app. simpl.
    destruct (answers_dec data x) as [[h Hh]|Hx].
    + rewrite (deliver_answer data x h _ Hh). simpl.
      exists l, x, []. split; [reflexivity|]. split; [exact Hh|].
      intros m h' [].
    + rewrite (deliver_other_response data x _ Hx).
      destruct (response (fold_left (deliver data) l handler_init)) as [h|].
      * destruct IH as (pre & n & post & -> & Hn & Hpost).
        exists pre, n, (post ++ [x]). split.
        { rewrite <- app_assoc. reflexivity. }
        split; [exact Hn|].
        intros m h' Hin. apply in_app_or in Hin. destruct Hin as [Hin|[<-|[]]].
        { apply Hpost. exact Hin. }
        { apply Hx. }
      * intros n h Hin. apply in_app_or in Hin. destruct Hin as [Hin|[<-|[]]].
        { apply IH. exact Hin. }
        { apply Hx. }
Qed.

Lemma send_unfold (self : VevorDevice.t) (device : BLEDevice)
    (data : list byte) (ns : list (list byte)) :
  VevorDevice.address_matches self device = true ->
  VevorDevice._send_ble_command self device data ns
  = (let st := fold_left (deliver data) ns handler_init in
     if response_received_latch st then Returned (response st) else Awaiting).
Proof.
  intros Ha. unfold VevorDevice._send_ble_command. rewrite Ha. reflexivity.
Qed.

(** A send that returns a status got it from the last answer delivered; one
    that returns nothing was delivered no answer. *)
Lemma send_returned (self : VevorDevice.t) (device : BLEDevice)
    (data : list byte) (ns : list (list byte))
    (r : option VevorHeaterStatus.t) :
  VevorDevice._send_ble_command self device data ns = Returned r ->
  VevorDevice.address_matches self device = true
  /\ match r with
     | Some h =>
         exists pre n post,
           ns = pre ++ n :: post
           /\ answers data n h
           /\ (forall m h', In m post -> ~ answers data m h')
     | None => forall n h, In n ns -> ~ answers data n h
     end.
Proof.
  unfold VevorDevice._send_ble_command.
  destruct (VevorDevice.address_matches self device); simpl; [|discriminate].
  destruct (response_received_latch (fold_left (deliver data) ns handler_init));
    [|discriminate].
  intros H. injection H as <-. split; [reflexivity|].
  apply response_after.
Qed.

(** A send that is still waiting was delivered no answer either. *)
Lemma send_awaiting (self : VevorDevice.t) (device : BLEDevice)
    (data : list byte) (ns : list (list byte)) :
  VevorDevice._send_ble_command self device data ns = Awaiting ->
  forall n h, In n ns -> ~ answers data n h.
Proof.
  unfold VevorDevice._send_ble_command.
  destruct (VevorDevice.address_matches self device); simpl; [|discriminate].
  destruct (response_received_latch (fold_left (deliver data) ns handler_init))
    eqn:L; [discriminate|].
  intros _ n h Hin Hn.
  apply in_split in Hin. destruct Hin as (pre & post & ->).
  rewrite fold_left_app in L. simpl in L.
  rewrite (deliver_answer data n h _ Hn) in L.
  assert (K : forall l st,
             response_received_latch st = true ->
             response_received_latch (fold_left (deliver data) l st) = true).
  { clear. induction l as [|m l IH]; intros st Hst; simpl; [exact Hst|].
    apply IH. unfold deliver, notification_handler.
    destruct (VevorHeaterStatusBle.from_ble_data_array m) as [[s|]|e];
      simpl; try assumption; try reflexivity.
    destruct (getitem data 4); simpl; [|assumption].
    destruct (negb (VevorHeaterStatusBle.request_type s =? a)); simpl;
      [reflexivity|].
    destruct (VevorHeaterStatus.from_ble_status s); simpl;
      [reflexivity | assumption]. }
  rewrite K in L; [discriminate L | reflexivity].
Qed.

(** C1 as stated fails: while the status read is in flight, a verified
    notification that answers another request type (3 instead of 1), or one
    with a wrong checksum, ends the wait; the send returns without a
    status. *)
Lemma discarded_notification_resolves_send :
  (exists s,
      VevorHeaterStatusBle.from_ble_data_array frame_turn_on_reply = Ok (Some s)
      /\ VevorHeaterStatusBle.request_type s = 3)
  /\ getitem read_status_frame 4 = Ok 1
  /\ VevorDevice._send_ble_command heater peer read_status_frame
       [frame_turn_on_reply] = Returned None
  /\ VevorHeaterStatusBle.from_ble_data_array frame_bad_checksum = Ok None
  /\ VevorDevice._send_ble_command heater peer read_status_frame
       [frame_bad_checksum] = Returned None.
Proof.
  split; [eexists; split; reflexivity|].
  repeat split; reflexivity.
Qed.

(** C1, amended: for a send in flight whose frame has a byte 4,
    - a 20 byte notification that fails verification, or whose request type
      differs from byte 4 of the frame, is discarded but sets the latch: when
      it is the only one delivered the send returns with no status, and
      delivered after others it leaves what the send returns unchanged;
    - a notification of any other size makes the callback raise and leaves
      the send waiting;
    - a verified notification with the matching request type makes the send
      return the status decoded from it, whatever was delivered before. *)
Theorem discarded_notification_sets_latch :
  forall (self : VevorDevice.t) (device : BLEDevice) (data : list byte) (rt : Z),
    VevorDevice.address_matches self device = true ->
    getitem data 4 = Ok rt ->
    (forall n,
        length n = 20%nat ->
        (forall h, ~ answers data n h) ->
        VevorDevice._send_ble_command self device data [n] = Returned None
        /\ forall pre r,
             VevorDevice._send_ble_command self device data pre = Returned r ->
             VevorDevice._send_ble_command self device data (pre ++ [n])
             = Returned r)
    /\ (forall n,
           length n <> 20%nat ->
           VevorDevice._send_ble_command self device data [n] = Awaiting)
    /\ (forall pre n h,
           answers data n h ->
           VevorDevice._send_ble_command self device data (pre ++ [n])
           = Returned (Some h)).
Proof.
  intros self device data rt Ha Hg. split; [|split].
  - intros n Hl Hn. split.
    + rewrite (send_unfold _ _ _ _ Ha). simpl.
      rewrite (deliver_sets_latch data n rt _ Hg Hl).
      rewrite (deliver_other_response data n _ Hn). reflexivity.
    + intros pre r. rewrite !(send_unfold _ _ _ _ Ha). cbv zeta.
      rewrite fold_left_app. simpl.
      rewrite (deliver_sets_latch data n rt _ Hg Hl).
      rewrite (deliver_other_response data n _ Hn).
      destruct (response_received_latch
                  (fold_left (deliver data) pre handler_init));
        [intros H; exact H | discriminate].
  - intros n Hl. rewrite (send_unfold _ _ _ _ Ha). simpl.
    rewrite (deliver_bad_length data n _ Hl). reflexivity.
  - intros pre n h Hn. rewrite (send_unfold _ _ _ _ Ha). cbv zeta.
    rewrite fold_left_app. simpl.
    rewrite (deliver_answer data n h _ Hn). reflexivity.
Qed.

Lemma discarded_notification_sets_latch_witness :
  VevorDevice._send_ble_command heater peer read_status_frame
    [frame_turn_on_reply] = Returned None
  /\ VevorDevice._send_ble_command heater peer read_status_frame
       [buffer_16_bytes] = Awaiting.
Proof.
  destruct (discarded_notification_sets_latch heater peer read_status_frame 1
              eq_refl eq_refl) as (H20 & Hbad & _).
  split.
  - apply (H20 frame_turn_on_reply); [reflexivity|].
    intros h (s & Hs & Hg & _).
    vm_compute in Hs. injection Hs as <-. vm_compute in Hg. discriminate Hg.
  - apply (Hbad buffer_16_bytes). simpl. discriminate.
Defined.

Lemma run_send_and_store (c : command) (self : VevorDevice.t)
    (device : BLEDevice) (ns : list (list byte)) :
  run c self device ns = VevorDevice.send_and_store self device (frame_of c) ns.
Proof. destruct c; reflexivity. Qed.

Lemma send_raised (self : VevorDevice.t) (device : BLEDevice)
    (data : list byte) (ns : list (list byte)) (e : exn) :
  VevorDevice._send_ble_command self device data ns = Raised e ->
  VevorDevice.address_matches self device = false.
Proof.
  unfold VevorDevice._send_ble_command.
  destruct (VevorDevice.address_matches self device); simpl; [|reflexivity].
  destruct (response_received_latch (fold_left (deliver data) ns handler_init));
    discriminate.
Qed.

(** C9: for each of the five sending methods, the stored status after the
    call is either the status decoded from the last verified notification
    with the matching request type that was delivered, put in place of the
    old one as a whole (name and address untouched), or the device is exactly
    as before, and then no such notification was delivered to a send that
    was started. *)
Theorem status_overwritten_exactly_on_response :
  forall (c : command) (self : VevorDevice.t) (device : BLEDevice)
         (ns : list (list byte)),
    let (o, self') := run c self device ns in
    VevorDevice.name self' = VevorDevice.name self
    /\ VevorDevice.address self' = VevorDevice.address self
    /\ ((exists data pre n post h,
            frame_of c = Ok data
            /\ VevorDevice.address_matches self device = true
            /\ ns = pre ++ n :: post
            /\ answers data n h
            /\ (forall m h', In m post -> ~ answers data m h')
            /\ o = Returned tt
            /\ VevorDevice.status self' = Some h)
        \/ (self' = self
            /\ forall data,
                 frame_of c = Ok data ->
                 VevorDevice.address_matches self device = true ->
                 forall n h, In n ns -> ~ answers data n h)).
Proof.
  intros c self device ns. rewrite run_send_and_store.
  unfold VevorDevice.send_and_store.
  destruct (frame_of c) as [data|e].
  - unfold VevorDevice.store_response.
    destruct (VevorDevice._send_ble_command self device data ns)
      as [[h|]|e|] eqn:S.
    + destruct (send_returned _ _ _ _ _ S) as (Ha & pre & n & post & E & Hn & Hp).
      simpl. split; [reflexivity|]. split; [reflexivity|].
      left. exists data, pre, n, post, h. repeat split; assumption.
    + destruct (send_returned _ _ _ _ _ S) as (Ha & Hnone).
      split; [reflexivity|]. split; [reflexivity|].
      right. split; [reflexivity|].
      intros data' Hd _. injection Hd as <-. exact Hnone.
    + split; [reflexivity|]. split; [reflexivity|].
      right. split; [reflexivity|].
      intros data' _ Ha. rewrite (send_raised _ _ _ _ _ S) in Ha.
      discriminate Ha.
    + split; [reflexivity|]. split; [reflexivity|].
      right. split; [reflexivity|].
      intros data' Hd _. injection Hd as <-. exact (send_awaiting _ _ _ _ S).
  - split; [reflexivity|]. split; [reflexivity|].
    right. split; [reflexivity|]. intros data Hd. discriminate Hd.
Qed.

(** The status read answered by a frame with a wrong checksum and then by a
    good one stores the status of the good one; answered by the bad one
    alone it stores nothing. *)
Lemma status_overwritten_exactly_on_response_witness :
  VevorDevice.status
    (snd (run ReadStatus heater peer [frame_bad_checksum; frame_temperature_mode]))
  <> None
  /\ snd (run ReadStatus heater peer [frame_bad_checksum]) = heater.
Proof.
  split.
  - pose proof (status_overwritten_exactly_on_response ReadStatus heater peer
                  [frame_bad_checksum; frame_temperature_mode]) as H.
    destruct (run ReadStatus heater peer
                [frame_bad_checksum; frame_temperature_mode]) as [o self'].
    destruct H as (_ & _ & [(data & pre & n & post & h & H)|[_ H]]).
    + destruct H as (_ & _ & _ & _ & _ & _ & Hst). simpl. rewrite Hst.
      discriminate.
    + exfalso.
      apply (H read_status_frame eq_refl eq_refl frame_temperature_mode
               (VevorHeaterStatus.mk (Some RUNNING) (Some TARGET_TEMPERATURE)
                  (Some HEATING) (Some 0) (Some 20) None (Some 20)
                  (Some (VevorHeaterStatus.volts 125)) (Some 200) (Some 21)
                  (Some NO_ERROR))).
      * simpl. right. left. reflexivity.
      * eexists. split; [reflexivity|]. split; reflexivity.
  - reflexivity.
Defined.

(** * Further properties of the codec *)

(** ** Which errors verification records *)

Lemma In_flag (x : string) (b : bool) (name : string) :
  In x (VevorHeaterStatusBle.flag b name) <-> b = true /\ name = x.
Proof.
  destruct b; simpl; split.
  - intros [H|[]]. split; [reflexivity | exact H].
  - intros [_ H]. left. exact H.
  - intros [].
  - intros [H _]. discriminate H.
Qed.

Lemma In_operational_mode_errors (x : string) (s : VevorHeaterStatusBle.t) :
  In x (VevorHeaterStatusBle.operational_mode_errors s)
  <-> (~ 0 <= VevorHeaterStatusBle.operational_mode s <= 2
       /\ "operational_mode"%string = x)
      \/ (((VevorHeaterStatusBle.operational_mode s = 1
            /\ ~ 1 <= VevorHeaterStatusBle.target_temperature_or_level s <= 10)
           \/ (VevorHeaterStatusBle.operational_mode s = 2
               /\ ~ 8 <= VevorHeaterStatusBle.target_temperature_or_level s <= 36)
           \/ (VevorHeaterStatusBle.operational_mode s = 0
               /\ VevorHeaterStatusBle.target_temperature_or_level s <> 0))
          /\ "target_temperature_or_level"%string = x).
Proof.
  unfold VevorHeaterStatusBle.operational_mode_errors,
    VevorHeaterStatusBle.allowed_target_range.
  destruct (VevorHeaterStatusBle.operational_mode s =? 1) eqn:M1;
  destruct (VevorHeaterStatusBle.operational_mode s =? 2) eqn:M2;
  destruct (VevorHeaterStatusBle.operational_mode s =? 0) eqn:M0;
  cbn [negb orb]; try rewrite In_flag; unfold in_range; simpl In;
  intuition (try discriminate; try lia).
Qed.

(** X1: on a frame that is not off, verification records every field that is
    out of its range, all of them and not only the first: each name is in the
    list exactly when its own test fails.  The request type is named only
    when it is not positive, the current power level is tested in target
    temperature mode only, and the checksum is named exactly when it does not
    match. *)
Theorem verification_errors_name_failing_fields :
  forall s : VevorHeaterStatusBle.t,
    VevorHeaterStatusBle.power_status s <> 0 ->
    let errors := VevorHeaterStatusBle.verification_errors s in
    (In "request_type"%string errors
     <-> VevorHeaterStatusBle.request_type s <= 0)
    /\ (In "power_status"%string errors
        <-> ~ 1 <= VevorHeaterStatusBle.power_status s <= 2)
    /\ (In "error"%string errors
        <-> ~ 0 <= VevorHeaterStatusBle.error s <= 10)
    /\ (In "operational_status"%string errors
        <-> ~ 0 <= VevorHeaterStatusBle.operational_status s <= 4)
    /\ (In "operational_mode"%string errors
        <-> ~ 0 <= VevorHeaterStatusBle.operational_mode s <= 2)
    /\ (In "target_temperature_or_level"%string errors
        <-> (VevorHeaterStatusBle.operational_mode s = 1
             /\ ~ 1 <= VevorHeaterStatusBle.target_temperature_or_level s <= 10)
            \/ (VevorHeaterStatusBle.operational_mode s = 2
                /\ ~ 8 <= VevorHeaterStatusBle.target_temperature_or_level s <= 36)
            \/ (VevorHeaterStatusBle.operational_mode s = 0
                /\ VevorHeaterStatusBle.target_temperature_or_level s <> 0))
    /\ (In "current_power_level"%string errors
        <-> VevorHeaterStatusBle.operational_mode s = 2
            /\ ~ 0 <= VevorHeaterStatusBle.current_power_level s <= 9)
    /\ (In "display_error"%string errors
        <-> ~ 0 <= VevorHeaterStatusBle.display_error s <= 10)
    /\ (In "checksum"%string errors
        <-> VevorHeaterStatusBle.calculated_checksum s
            <> VevorHeaterStatusBle.checksum s).
Proof.
  intros s Hp errors. subst errors.
  unfold VevorHeaterStatusBle.verification_errors.
  replace (negb (VevorHeaterStatusBle.power_status s =? 0)) with true by lia.
  unfold VevorHeaterStatusBle.range_errors.
  repeat match goal with |- _ /\ _ => split end;
    repeat rewrite in_app_iff;
    repeat rewrite In_flag;
    rewrite In_operational_mode_errors;
    unfold VevorHeaterStatusBle.request_type_test, in_range;
    intuition (try discriminate; try lia).
Qed.

Lemma verification_errors_name_failing_fields_witness :
  exists s,
    VevorHeaterStatusBle.unpack frame_three_errors = Ok s
    /\ VevorHeaterStatusBle.verification_errors s
       = ["error"; "operational_status"; "display_error"]%string
    /\ (In "error"%string (VevorHeaterStatusBle.verification_errors s)
        <-> ~ 0 <= VevorHeaterStatusBle.error s <= 10).
Proof.
  eexists. split; [reflexivity|]. split; [reflexivity|].
  assert (Hp : VevorHeaterStatusBle.power_status
                 (VevorHeaterStatusBle.mk 21930 1 1 11 5 0 2 20 3 125 200 21
                                          11 143) <> 0)
    by (simpl; lia).
  destruct (verification_errors_name_failing_fields _ Hp)
    as (_ & _ & H & _).
  exact H.
Defined.

(** X2: the frames that verification accepts are exactly those whose
    checksum matches and that either report power status 0 or have a positive
    request type, power status 1 or 2, error and display error within 0..10,
    operational status within 0..4 and one of: mode 0 with target 0, mode 1
    with target within 1..10, mode 2 with target within 8..36 and current
    power level within 0..9. *)
Theorem verify_accepts_exactly :
  forall s : VevorHeaterStatusBle.t,
    VevorHeaterStatusBle._verify s = true
    <-> VevorHeaterStatusBle.calculated_checksum s
        = VevorHeaterStatusBle.checksum s
        /\ (VevorHeaterStatusBle.power_status s = 0
            \/ (0 < VevorHeaterStatusBle.request_type s
                /\ 1 <= VevorHeaterStatusBle.power_status s <= 2
                /\ 0 <= VevorHeaterStatusBle.error s <= 10
                /\ 0 <= VevorHeaterStatusBle.operational_status s <= 4
                /\ ((VevorHeaterStatusBle.operational_mode s = 0
                     /\ VevorHeaterStatusBle.target_temperature_or_level s = 0)
                    \/ (VevorHeaterStatusBle.operational_mode s = 1
                        /\ 1 <= VevorHeaterStatusBle.target_temperature_or_level s
                           <= 10)
                    \/ (VevorHeaterStatusBle.operational_mode s = 2
                        /\ 8 <= VevorHeaterStatusBle.target_temperature_or_level s
                           <= 36
                        /\ 0 <= VevorHeaterStatusBle.current_power_level s <= 9))
                /\ 0 <= VevorHeaterStatusBle.display_error s <= 10)).
Proof.
  intros s. split.
  - intros Hv.
    destruct (Z.eq_dec (VevorHeaterStatusBle.power_status s) 0) as [Hp|Hp].
    + split; [|left; exact Hp].
      apply verify_true_iff in Hv.
      unfold VevorHeaterStatusBle.verification_errors in Hv.
      apply app_eq_nil in Hv. destruct Hv as [_ Hc].
      apply flag_nil in Hc. lia.
    + destruct (verified_ranges s Hv Hp) as (Hr & Hps & He & Ho & Hm & Hd & Hc).
      split; [exact Hc|]. right. repeat split; try assumption; lia.
  - intros (Hc & [Hp | (Hr & Hps & He & Ho & Hm & Hd)]);
      apply verify_true_iff;
      unfold VevorHeaterStatusBle.verification_errors;
      rewrite Hc, Z.eqb_refl.
    + rewrite Hp. reflexivity.
    + unfold VevorHeaterStatusBle.range_errors,
        VevorHeaterStatusBle.operational_mode_errors,
        VevorHeaterStatusBle.allowed_target_range,
        VevorHeaterStatusBle.request_type_test, in_range.
      replace (VevorHeaterStatusBle.power_status s =? 0) with false by lia.
      replace (VevorHeaterStatusBle.request_type s <=? 0) with false by lia.
      replace (VevorHeaterStatusBle.power_status s =? 1)
        with (negb (VevorHeaterStatusBle.power_status s =? 2)) by lia.
      replace ((0 <=? VevorHeaterStatusBle.error s)
               && (VevorHeaterStatusBle.error s <? 11)) with true by lia.
      replace ((0 <=? VevorHeaterStatusBle.operational_status s)
               && (VevorHeaterStatusBle.operational_status s <? 5))
        with true by lia.
      replace ((0 <=? VevorHeaterStatusBle.display_error s)
               && (VevorHeaterStatusBle.display_error s <? 11))
        with true by lia.
      destruct (VevorHeaterStatusBle.power_status s =? 2);
        destruct Hm as [[M T]|[[M T]|(M & T & C)]]; rewrite M; simpl.
      all: try (replace ((1 <=? VevorHeaterStatusBle.target_temperature_or_level s)
                         && (VevorHeaterStatusBle.target_temperature_or_level s
                             <? 11)) with true by lia).
      all: try (replace ((8 <=? VevorHeaterStatusBle.target_temperature_or_level s)
                         && (VevorHeaterStatusBle.target_temperature_or_level s
                             <? 37)) with true by lia).
      all: try (replace ((0 <=? VevorHeaterStatusBle.current_power_level s)
                         && (VevorHeaterStatusBle.current_power_level s <? 10))
                  with true by lia).
      all: try rewrite T; reflexivity.
Qed.

(** ** What verification does not look at *)

(** Verification reads the request type only through the test [<= 0], and
    does not read the magic constant. *)
Lemma verification_errors_ext
    (mc mc' rt rt' ps er os el om tg cp iv ct rm de ck : Z) :
  (rt <=? 0) = (rt' <=? 0) ->
  VevorHeaterStatusBle.verification_errors
    (VevorHeaterStatusBle.mk mc rt ps er os el om tg cp iv ct rm de ck)
  = VevorHeaterStatusBle.verification_errors
      (VevorHeaterStatusBle.mk mc' rt' ps er os el om tg cp iv ct rm de ck).
Proof.
  intros H.
  unfold VevorHeaterStatusBle.verification_errors,
    VevorHeaterStatusBle.range_errors,
    VevorHeaterStatusBle.request_type_test.
  cbn [VevorHeaterStatusBle.request_type]. rewrite H. reflexivity.
Qed.

(** X3: the two header bytes and the pad byte of a status frame are never
    validated, and of the request type only whether it is 0 matters: two
    frames that differ in nothing else record the same verification errors
    and convert to the same status. *)
Theorem header_and_padding_not_validated :
  forall m0 m1 m0' m1' rt rt' pad pad'
         ps er os el0 el1 om tg cp iv0 iv1 ct0 ct1 rm0 rm1 de ck : byte,
    (int_of_byte rt = 0 <-> int_of_byte rt' = 0) ->
    exists s s',
      VevorHeaterStatusBle.unpack
        [m0; m1; rt; ps; er; os; el0; el1; om; tg; cp; iv0; iv1; ct0; ct1;
         rm0; rm1; de; pad; ck] = Ok s
      /\ VevorHeaterStatusBle.unpack
           [m0'; m1'; rt'; ps; er; os; el0; el1; om; tg; cp; iv0; iv1; ct0; ct1;
            rm0; rm1; de; pad'; ck] = Ok s'
      /\ VevorHeaterStatusBle.verification_errors s
         = VevorHeaterStatusBle.verification_errors s'
      /\ VevorHeaterStatus.from_ble_status s
         = VevorHeaterStatus.from_ble_status s'.
Proof.
  intros. do 2 eexists. split; [reflexivity|]. split; [reflexivity|].
  split; [|reflexivity].
  apply verification_errors_ext.
  pose proof (int_of_byte_range rt). pose proof (int_of_byte_range rt').
  lia.
Qed.

Lemma header_and_padding_not_validated_witness :
  exists s s',
    VevorHeaterStatusBle.unpack frame_temperature_mode = Ok s
    /\ VevorHeaterStatusBle.unpack
         [x00; x00; xff; x01; x00; x03; x00; x00; x02; x14; x03; x7d; x00; xc8;
          x00; x15; x00; x00; xee; x77] = Ok s'
    /\ VevorHeaterStatusBle.verification_errors s
       = VevorHeaterStatusBle.verification_errors s'
    /\ VevorHeaterStatus.from_ble_status s
       = VevorHeaterStatus.from_ble_status s'.
Proof.
  apply (header_and_padding_not_validated xaa x55 x00 x00 x01 xff x00 xee).
  vm_compute. split; discriminate.
Defined.

(** ** What a decoded status holds *)







(** * Further properties of the session *)

(** ** The frames that are written *)

Lemma command_frame_shape (rt param : Z) (frame : list byte) :
  command_frame rt param frame ->
  length frame = 8%nat
  /\ getitem frame 4 = Ok rt
  /\ firstn 4 frame = [xaa; x55; x0c; x22].
Proof.
  intros (checksum & Hi & _). unfold ints in Hi.
  do 8 (destruct frame as [|? frame]; [discriminate Hi|]).
  destruct frame; [|discriminate Hi].
  simpl in Hi. injection Hi as H0 H1 H2 H3 H4 _ _ _.
  split; [reflexivity|]. split.
  - unfold getitem. simpl. rewrite H4. reflexivity.
  - simpl.
    assert (Inj : forall a c : byte, int_of_byte a = int_of_byte c -> a = c).
    { intros a c E. unfold int_of_byte in E. apply N2Z.inj in E.
      apply (f_equal Byte.of_N) in E. rewrite !Byte.of_to_N in E.
      injection E as E. exact E. }
    rewrite (Inj b xaa H0), (Inj b0 x55 H1), (Inj b1 x0c H2), (Inj b2 x22 H3).
    reflexivity.
Qed.

(** What building the frame of a method gives: a frame, or ValueError for a
    target that is no byte. *)
Lemma frame_of_cases (c : command) :
  (exists data,
      frame_of c = Ok data
      /\ length data = 8%nat
      /\ getitem data 4 = Ok (RequestType_value (request_type_of c))
      /\ firstn 4 data = [xaa; x55; x0c; x22])
  \/ (frame_of c = Raise ValueError
      /\ exists target, c = SetTarget target /\ ~ 0 <= target <= 255).
Proof.
  destruct c as [|mode|target| |]; simpl.
  - left. eexists. repeat split.
  - left. unfold VevorDevice.set_operational_mode_data.
    destruct (built_frame 2 x02 (OperationalMode_value mode) eq_refl eq_refl)
      as (frame & Hf & Hc); [destruct mode; simpl; lia|].
    exists frame. split; [exact Hf|]. apply (command_frame_shape _ _ _ Hc).
  - destruct (Z_le_dec 0 target) as [L|L];
      [destruct (Z_le_dec target 255) as [U|U]|].
    + left. unfold VevorDevice.set_target_data.
      destruct (built_frame 4 x04 target eq_refl eq_refl) as (frame & Hf & Hc);
        [lia|].
      exists frame. split; [exact Hf|]. apply (command_frame_shape _ _ _ Hc).
    + right. split; [apply set_target_data_out_of_range; lia|].
      exists target. split; [reflexivity | lia].
    + right. split; [apply set_target_data_out_of_range; lia|].
      exists target. split; [reflexivity | lia].
  - left. eexists. repeat split.
  - left. eexists. repeat split.
Qed.

(** X5: every frame that a sending method gets to write has 8 bytes, starts
    with AA 55 0C 22 and carries in byte 4, the byte that replies are matched
    on, the value of the RequestType member for the method: READ_STATUS for
    refresh_status, SET_OP_MODE for _set_operational_mode, TURN_ON_OFF for
    turn_on and turn_off, SET_HEATING_INTENSITY for _set_target. *)
Theorem frames_carry_request_type :
  forall (c : command) (data : list byte),
    frame_of c = Ok data ->
    length data = 8%nat
    /\ firstn 4 data = [xaa; x55; x0c; x22]
    /\ getitem data 4 = Ok (RequestType_value (request_type_of c)).
Proof.
  intros c data H.
  destruct (frame_of_cases c) as [(d & Hd & Hl & Hg & Hh) | (Hr & _)].
  - rewrite Hd in H. injection H as <-. repeat split; assumption.
  - rewrite Hr in H. discriminate H.
Qed.

Lemma frames_carry_request_type_witness :
  exists data,
    frame_of (SetTarget 20) = Ok data
    /\ getitem data 4 = Ok 4.
Proof.
  eexists. split; [reflexivity|].
  apply (frames_carry_request_type (SetTarget 20)). reflexivity.
Defined.

(** ** Address check *)

(** X6: when the address of the BLE device is not the one the VevorDevice was
    created with (or it was created without an address), each of the five
    sending methods and both composite setters raise ValueError, whatever
    notifications would arrive, and leave the device as it was. *)
Theorem address_mismatch_raises :
  forall (self : VevorDevice.t) (device : BLEDevice),
    VevorDevice.address_matches self device = false ->
    (forall (c : command) (ns : list (list byte)),
        run c self device ns = (Raised ValueError, self))
    /\ (forall (temperature : Z) (ns1 ns2 : list (list byte)),
           VevorDevice.set_target_temperature self device temperature ns1 ns2
           = (Raised ValueError, self))
    /\ (forall (power_level : Z) (ns1 ns2 : list (list byte)),
           VevorDevice.set_target_power_level self device power_level ns1 ns2
           = (Raised ValueError, self)).
Proof.
  intros self device Ha.
  assert (R : forall c ns, run c self device ns = (Raised ValueError, self)).
  { intros c ns. rewrite run_send_and_store.
    unfold VevorDevice.send_and_store.
    destruct (frame_of_cases c) as [(d & Hd & _) | (Hr & _)].
    - rewrite Hd. unfold VevorDevice._send_ble_command. rewrite Ha.
      reflexivity.
    - rewrite Hr. reflexivity. }
  split; [exact R|]. split; intros v ns1 ns2.
  - unfold VevorDevice.set_target_temperature.
    change (VevorDevice._set_operational_mode self device TARGET_TEMPERATURE ns1)
      with (run (SetOperationalMode TARGET_TEMPERATURE) self device ns1).
    rewrite R. reflexivity.
  - unfold VevorDevice.set_target_power_level.
    change (VevorDevice._set_operational_mode self device POWER_LEVEL ns1)
      with (run (SetOperationalMode POWER_LEVEL) self device ns1).
    rewrite R. reflexivity.
Qed.

Lemma address_mismatch_raises_witness :
  run ReadStatus heater stranger [frame_temperature_mode]
  = (Raised ValueError, heater).
Proof.
  destruct (address_mismatch_raises heater stranger eq_refl) as (H & _).
  apply H.
Defined.

(** ** When the callback raises and when the send returns *)

Lemma handler_returns_on_full_frame (data n : list byte) (rt : Z)
    (st : handler_state) :
  getitem data 4 = Ok rt ->
  length n = 20%nat ->
  exists st', notification_handler data n st = Ok st'.
Proof.
  intros Hg Hl. destruct (unpack_length n Hl) as [s Hs].
  unfold notification_handler, VevorHeaterStatusBle.from_ble_data_array.
  rewrite Hs. simpl.
  destruct (VevorHeaterStatusBle._verify s) eqn:V; simpl;
    [|eexists; reflexivity].
  rewrite Hg. simpl.
  destruct (VevorHeaterStatusBle.request_type s =? rt) eqn:E; simpl;
    [|eexists; reflexivity].
  destruct (from_ble_status_total_on_verified_aux s V) as [h Hh].
  rewrite Hh. simpl. eexists; reflexivity.
Qed.

(** X7: while a frame with a byte 4 is outstanding, the notification callback
    raises exactly on payloads whose size is not 20 bytes, and what it raises
    is struct.error: no verified frame makes the conversion to the domain
    status raise inside the callback. *)
Theorem handler_raises_on_wrong_size_only :
  forall (data n : list byte) (rt : Z) (st : handler_state),
    getitem data 4 = Ok rt ->
    (notification_handler data n st = Raise StructError
     <-> length n <> 20%nat)
    /\ (forall e, notification_handler data n st = Raise e -> e = StructError).
Proof.
  intros data n rt st Hg.
  destruct (Nat.eq_dec (length n) 20) as [Hl|Hl].
  - destruct (handler_returns_on_full_frame data n rt st Hg Hl) as [st' Hst].
    rewrite Hst. split.
    + split; [discriminate | intros H; contradiction].
    + discriminate.
  - assert (R : notification_handler data n st = Raise StructError).
    { unfold notification_handler, VevorHeaterStatusBle.from_ble_data_array.
      rewrite (unpack_bad_length n Hl). reflexivity. }
    rewrite R. split.
    + split; [intros _; exact Hl | reflexivity].
    + intros e H. injection H as <-. reflexivity.
Qed.

Lemma handler_raises_on_wrong_size_only_witness :
  notification_handler read_status_frame buffer_16_bytes handler_init
  = Raise StructError
  <-> length buffer_16_bytes <> 20%nat.
Proof.
  apply (handler_raises_on_wrong_size_only read_status_frame buffer_16_bytes 1
           handler_init eq_refl).
Defined.

Lemma latch_after (data : list byte) (rt : Z) (ns : list (list byte)) :
  getitem data 4 = Ok rt ->
  forall st,
    response_received_latch (fold_left (deliver data) ns st) = true
    <-> response_received_latch st = true
        \/ Exists (fun n => length n = 20%nat) ns.
Proof.
  intros Hg. induction ns as [|n ns IH]; intros st; simpl.
  - split; [intros H; left; exact H|].
    intros [H|H]; [exact H | inversion H].
  - rewrite IH. destruct (Nat.eq_dec (length n) 20) as [Hl|Hl].
    + rewrite (deliver_sets_latch data n rt st Hg Hl). split.
      * intros _. right. constructor. exact Hl.
      * intros _. left. reflexivity.
    + rewrite (deliver_bad_length data n st Hl). split.
      * intros [H|H]; [left; exact H | right; constructor 2; exact H].
      * intros [H|H]; [left; exact H|].
        inversion H; subst; [contradiction | right; assumption].
Qed.

(** X8: a sending method whose frame was built and whose address matches is
    left waiting exactly when none of the notifications delivered has 20
    bytes, and then the device is unchanged; as soon as one notification has
    20 bytes the method returns.  Nothing else ends the wait. *)
Theorem send_waits_iff_no_full_frame :
  forall (c : command) (self : VevorDevice.t) (device : BLEDevice)
         (data : list byte) (ns : list (list byte)),
    frame_of c = Ok data ->
    VevorDevice.address_matches self device = true ->
    (run c self device ns = (Awaiting, self)
     <-> Forall (fun n => length n <> 20%nat) ns)
    /\ (fst (run c self device ns) = Returned tt
        <-> Exists (fun n => length n = 20%nat) ns).
Proof.
  intros c self device data ns Hd Ha.
  destruct (frame_of_cases c) as [(d & Hd' & _ & Hg & _) | (Hr & _)];
    [|rewrite Hr in Hd; discriminate Hd].
  rewrite Hd in Hd'. injection Hd' as <-.
  rewrite run_send_and_store. unfold VevorDevice.send_and_store.
  rewrite Hd, (send_unfold _ _ _ _ Ha). cbv zeta.
  pose proof (latch_after data _ ns Hg handler_init) as L. simpl in L.
  destruct (response_received_latch (fold_left (deliver data) ns handler_init)).
  - assert (E : Exists (fun n => length n = 20%nat) ns).
    { destruct (proj1 L eq_refl) as [H|H]; [discriminate H | exact H]. }
    split.
    + split.
      * unfold VevorDevice.store_response.
        destruct (response (fold_left (deliver data) ns handler_init));
          discriminate.
      * intros F. exfalso. apply Exists_exists in E.
        destruct E as (n & Hin & Hl).
        rewrite Forall_forall in F. exact (F n Hin Hl).
    + split; [intros _; exact E|]. intros _.
      unfold VevorDevice.store_response.
      destruct (response (fold_left (deliver data) ns handler_init));
        reflexivity.
  - assert (N : ~ Exists (fun n => length n = 20%nat) ns).
    { intros E. assert (false = true) as X by (apply L; right; exact E).
      discriminate X. }
    split.
    + split; [|reflexivity]. intros _.
      apply Forall_forall. intros n Hin Hl. apply N.
      apply Exists_exists. exists n. split; assumption.
    + simpl. split; [discriminate | intros E; contradiction].
Qed.

Lemma send_waits_iff_no_full_frame_witness :
  (run ReadStatus heater peer [buffer_16_bytes; []] = (Awaiting, heater)
   <-> Forall (fun n => length n <> 20%nat) [buffer_16_bytes; []])
  /\ (fst (run ReadStatus heater peer [buffer_16_bytes; []]) = Returned tt
      <-> Exists (fun n => length n = 20%nat) [buffer_16_bytes; []]).
Proof.
  apply (send_waits_iff_no_full_frame ReadStatus heater peer read_status_frame);
    reflexivity.
Defined.

(** ** What replies are matched on *)

Lemma handler_reads_byte_4 (data data' n : list byte) (st : handler_state) :
  getitem data 4 = getitem data' 4 ->
  notification_handler data n st = notification_handler data' n st.
Proof.
  intros H. unfold notification_handler. rewrite H. reflexivity.
Qed.

Lemma fold_deliver_reads_byte_4 (data data' : list byte)
    (ns : list (list byte)) (st : handler_state) :
  getitem data 4 = getitem data' 4 ->
  fold_left (deliver data) ns st = fold_left (deliver data') ns st.
Proof.
  intros H. revert st. induction ns as [|n ns IH]; intros st; simpl.
  - reflexivity.
  - unfold deliver at 2 4. rewrite (handler_reads_byte_4 data data' n st H).
    apply IH.
Qed.

(** X9: replies are matched on byte 4 of the outstanding frame and on nothing
    else: two frames with the same byte 4 get the same result from the same
    notifications.  In particular turn_on and turn_off, whose frames share
    request type 3, cannot tell their replies apart: they end alike and store
    the same status. *)
Theorem correlation_reads_byte_4_only :
  (forall (data data' : list byte) (self : VevorDevice.t) (device : BLEDevice)
          (ns : list (list byte)),
      getitem data 4 = getitem data' 4 ->
      VevorDevice._send_ble_command self device data ns
      = VevorDevice._send_ble_command self device data' ns)
  /\ (forall (self : VevorDevice.t) (device : BLEDevice)
             (ns : list (list byte)),
         VevorDevice.turn_on self device ns
         = VevorDevice.turn_off self device ns).
Proof.
  assert (S : forall data data' self device ns,
             getitem data 4 = getitem data' 4 ->
             VevorDevice._send_ble_command self device data ns
             = VevorDevice._send_ble_command self device data' ns).
  { intros data data' self device ns H.
    unfold VevorDevice._send_ble_command.
    rewrite (fold_deliver_reads_byte_4 data data' ns handler_init H).
    reflexivity. }
  split; [exact S|].
  intros self device ns.
  unfold VevorDevice.turn_on, VevorDevice.turn_off, VevorDevice.send_and_store.
  change VevorDevice.turn_on_data with (Ok turn_on_frame).
  change VevorDevice.turn_off_data with (Ok turn_off_frame).
  cbv beta iota.
  rewrite (S turn_on_frame turn_off_frame self device ns eq_refl).
  reflexivity.
Qed.

Lemma correlation_reads_byte_4_only_witness :
  VevorDevice._send_ble_command heater peer turn_on_frame [frame_turn_on_reply]
  = VevorDevice._send_ble_command heater peer turn_off_frame
      [frame_turn_on_reply].
Proof.
  destruct correlation_reads_byte_4_only as (H & _).
  apply H. reflexivity.
Defined.

(** ** The composite setters *)

Lemma fold_no_answers (data : list byte) (post : list (list byte)) :
  (forall m h', In m post -> ~ answers data m h') ->
  forall st, response (fold_left (deliver data) post st) = response st.
Proof.
  induction post as [|m post IH]; intros Hn st; simpl; [reflexivity|].
  rewrite IH.
  - apply deliver_other_response. intros h. apply Hn. left. reflexivity.
  - intros m' h' Hin. apply Hn. right. exact Hin.
Qed.

(** A send with a matching address that is delivered an answer, and no
    answer after it, returns and stores the status of that answer. *)
Lemma run_last_answer (c : command) (self : VevorDevice.t)
    (device : BLEDevice) (data : list byte) (pre post : list (list byte))
    (n : list byte) (h : VevorHeaterStatus.t) :
  frame_of c = Ok data ->
  VevorDevice.address_matches self device = true ->
  answers data n h ->
  (forall m h', In m post -> ~ answers data m h') ->
  run c self device (pre ++ n :: post)
  = (Returned tt,
     {| VevorDevice.name := VevorDevice.name self;
        VevorDevice.address := VevorDevice.address self;
        VevorDevice.status := Some h |}).
Proof.
  intros Hd Ha Hn Hpost.
  destruct (frame_of_cases c) as [(d & Hd' & _ & Hg & _) | (Hr & _)];
    [|rewrite Hr in Hd; discriminate Hd].
  rewrite Hd in Hd'. injection Hd' as <-.
  rewrite run_send_and_store. unfold VevorDevice.send_and_store.
  rewrite Hd, (send_unfold _ _ _ _ Ha). cbv zeta.
  rewrite fold_left_app. simpl.
  rewrite (deliver_answer data n h _ Hn).
  rewrite (fold_no_answers data post Hpost).
  replace (response_received_latch
             (fold_left (deliver data) post
                {| response := Some h; response_received_latch := true |}))
    with true.
  - reflexivity.
  - symmetry. apply (latch_after data _ post Hg). left. reflexivity.
Qed.

(** A send that is delivered no answer leaves the device as it was. *)
Lemma run_no_answer (c : command) (self : VevorDevice.t)
    (device : BLEDevice) (data : list byte) (ns : list (list byte)) :
  frame_of c = Ok data ->
  (forall n h, In n ns -> ~ answers data n h) ->
  snd (run c self device ns) = self.
Proof.
  intros Hd Hn. rewrite run_send_and_store.
  unfold VevorDevice.send_and_store. rewrite Hd.
  unfold VevorDevice._send_ble_command.
  destruct (VevorDevice.address_matches self device); simpl; [|reflexivity].
  pose proof (fold_no_answers data ns Hn handler_init) as R. simpl in R.
  rewrite R.
  destruct (response_received_latch (fold_left (deliver data) ns handler_init));
    reflexivity.
Qed.

(** A send that returned had a matching address, and keeps name and
    address. *)
Lemma run_returned (c : command) (self : VevorDevice.t) (device : BLEDevice)
    (ns : list (list byte)) :
  fst (run c self device ns) = Returned tt ->
  VevorDevice.address_matches self device = true
  /\ VevorDevice.address (snd (run c self device ns)) = VevorDevice.address self
  /\ VevorDevice.name (snd (run c self device ns)) = VevorDevice.name self.
Proof.
  rewrite run_send_and_store. unfold VevorDevice.send_and_store.
  destruct (frame_of c) as [data|e]; [|discriminate].
  unfold VevorDevice._send_ble_command.
  destruct (VevorDevice.address_matches self device); simpl; [|discriminate].
  destruct (response_received_latch (fold_left (deliver data) ns handler_init));
    simpl; [|discriminate].
  destruct (response (fold_left (deliver data) ns handler_init)); simpl;
    intros _; repeat split.
Qed.

(** The two composite setters, by the mode they select. *)
Lemma composite_unfold (mode : OperationalMode) (self : VevorDevice.t)
    (device : BLEDevice) (v : Z) (ns1 ns2 : list (list byte)) :
  match mode with
  | TARGET_TEMPERATURE => VevorDevice.set_target_temperature
  | POWER_LEVEL => VevorDevice.set_target_power_level
  end self device v ns1 ns2
  = VevorDevice.then_send
      (run (SetOperationalMode mode) self device ns1)
      (fun self' => run (SetTarget v) self' device ns2).
Proof. destruct mode; reflexivity. Qed.

(** X10: set_target_temperature and set_target_power_level are two sends and
    not one step.  The target frame is sent only when the mode change
    returned; otherwise the call ends as the mode change did and the second
    batch of notifications plays no part.  When it is sent, the status
    stored by the mode change stays in place unless the target change is
    delivered an answer of its own, and then the status of its last answer
    replaces it. *)
Theorem composite_setters_are_two_sends :
  forall (mode : OperationalMode) (self : VevorDevice.t) (device : BLEDevice)
         (v : Z) (ns1 ns2 : list (list byte)),
    let first := VevorDevice._set_operational_mode self device mode ns1 in
    let both :=
      match mode with
      | TARGET_TEMPERATURE => VevorDevice.set_target_temperature
      | POWER_LEVEL => VevorDevice.set_target_power_level
      end self device v ns1 ns2 in
    (fst first <> Returned tt -> both = first)
    /\ (fst first = Returned tt ->
        forall data,
          VevorDevice.set_target_data v = Ok data ->
          ((forall n h, In n ns2 -> ~ answers data n h) ->
           snd both = snd first)
          /\ (forall pre n post h,
                 ns2 = pre ++ n :: post ->
                 answers data n h ->
                 (forall m h', In m post -> ~ answers data m h') ->
                 both
                 = (Returned tt,
                    {| VevorDevice.name := VevorDevice.name self;
                       VevorDevice.address := VevorDevice.address self;
                       VevorDevice.status := Some h |}))).
Proof.
  intros mode self device v ns1 ns2 first both. subst both.
  rewrite composite_unfold.
  change (run (SetOperationalMode mode) self device ns1) with first.
  split.
  - intros Hf. unfold VevorDevice.then_send.
    destruct first as [[[]| |] self1]; simpl in *;
      [contradiction Hf; reflexivity | reflexivity | reflexivity].
  - intros Hf data Hd.
    destruct (run_returned (SetOperationalMode mode) self device ns1 Hf)
      as (Ha & Haddr & Hname).
    change (run (SetOperationalMode mode) self device ns1) with first
      in Haddr, Hname.
    unfold VevorDevice.then_send.
    destruct first as [[[]| |] self1]; simpl in Hf; try discriminate Hf.
    simpl in Haddr, Hname. simpl snd. split.
    + intros Hn. apply (run_no_answer (SetTarget v) self1 device data ns2 Hd Hn).
    + intros pre n post h -> Hn Hpost.
      rewrite (run_last_answer (SetTarget v) self1 device data pre post n h
                 Hd); try assumption.
      * rewrite Haddr, Hname. reflexivity.
      * unfold VevorDevice.address_matches in *. rewrite Haddr. exact Ha.
Qed.

Lemma composite_setters_are_two_sends_witness :
  VevorDevice.set_target_temperature heater stranger 20 [frame_mode_reply]
    [frame_target_reply]
  = VevorDevice._set_operational_mode heater stranger TARGET_TEMPERATURE
      [frame_mode_reply]
  /\ snd (VevorDevice.set_target_temperature heater peer 20 [frame_mode_reply]
            [frame_turn_on_reply])
     = snd (VevorDevice._set_operational_mode heater peer TARGET_TEMPERATURE
              [frame_mode_reply]).
Proof.
  split.
  - apply (composite_setters_are_two_sends TARGET_TEMPERATURE heater stranger
             20 [frame_mode_reply] [frame_target_reply]).
    vm_compute. discriminate.
  - destruct (composite_setters_are_two_sends TARGET_TEMPERATURE heater peer
                20 [frame_mode_reply] [frame_turn_on_reply]) as (_ & H).
    destruct (H eq_refl [xaa; x55; x0c; x22; x04; x14; x00; x46] eq_refl)
      as (H1 & _).
    apply H1. intros n h [<-|[]] (s & Hs & Hg & _).
    vm_compute in Hs. injection Hs as <-. vm_compute in Hg. discriminate Hg.
Defined.

(** X11: a target that is no byte (outside 0..255) makes _set_target raise
    ValueError while the frame is built: nothing is sent and the device is
    unchanged, whatever the address.  In the composite setters the mode
    change has been sent by then: when it returned, the call raises
    ValueError with the status that the mode change stored left in place. *)
Theorem target_out_of_byte_range_raises :
  forall (mode : OperationalMode) (self : VevorDevice.t) (device : BLEDevice)
         (v : Z) (ns1 ns2 : list (list byte)),
    ~ 0 <= v <= 255 ->
    VevorDevice._set_target self device v ns2 = (Raised ValueError, self)
    /\ (fst (VevorDevice._set_operational_mode self device mode ns1)
        = Returned tt ->
        match mode with
        | TARGET_TEMPERATURE => VevorDevice.set_target_temperature
        | POWER_LEVEL => VevorDevice.set_target_power_level
        end self device v ns1 ns2
        = (Raised ValueError,
           snd (VevorDevice._set_operational_mode self device mode ns1))).
Proof.
  intros mode self device v ns1 ns2 Hv.
  assert (T : forall self', VevorDevice._set_target self' device v ns2
                            = (Raised ValueError, self')).
  { intros self'. unfold VevorDevice._set_target, VevorDevice.send_and_store.
    rewrite (set_target_data_out_of_range v Hv). reflexivity. }
  split; [apply T|].
  intros Hf. rewrite composite_unfold.
  change (run (SetOperationalMode mode) self device ns1)
    with (VevorDevice._set_operational_mode self device mode ns1).
  destruct (VevorDevice._set_operational_mode self device mode ns1)
    as [[[]| |] self1]; simpl in Hf; try discriminate Hf.
  simpl. apply T.
Qed.

Lemma target_out_of_byte_range_raises_witness :
  fst (VevorDevice.set_target_temperature heater peer 300 [frame_mode_reply]
         [frame_target_reply]) = Raised ValueError
  /\ VevorDevice.status
       (snd (VevorDevice.set_target_temperature heater peer 300
               [frame_mode_reply] [frame_target_reply]))
     <> VevorDevice.status heater.
Proof.
  assert (Hv : ~ 0 <= 300 <= 255) by lia.
  destruct (target_out_of_byte_range_raises TARGET_TEMPERATURE heater peer 300
              [frame_mode_reply] [frame_target_reply] Hv) as (_ & H).
  rewrite (H eq_refl). split; [reflexivity|]. vm_compute. discriminate.
Defined.

(** * The parser of example.py *)




(** * What the checksum covers *)

Lemma calculated_checksum_low
    (mc rt ps er os e0 e1 om tg cp i0 i1 c0 c1 r0 r1 de ck : Z) :
  VevorHeaterStatusBle.calculated_checksum
    (VevorHeaterStatusBle.mk mc rt ps er os (e0 + 256 * e1) om tg cp
       (i0 + 256 * i1) (c0 + 256 * c1) (r0 + 256 * r1) de ck)
  = (ps + er + os + e0 + om + tg + cp + i0 + c0 + r0 + de) mod 256.
Proof.
  unfold VevorHeaterStatusBle.calculated_checksum, sum.
  cbn [fold_left VevorHeaterStatusBle.power_status VevorHeaterStatusBle.error
       VevorHeaterStatusBle.operational_status VevorHeaterStatusBle.elevation
       VevorHeaterStatusBle.operational_mode
       VevorHeaterStatusBle.target_temperature_or_level
       VevorHeaterStatusBle.current_power_level
       VevorHeaterStatusBle.input_voltage_decivolts
       VevorHeaterStatusBle.combustion_temperature
       VevorHeaterStatusBle.room_temperature
       VevorHeaterStatusBle.display_error].
  rewrite <- (Z_mod_plus_full
                (ps + er + os + e0 + om + tg + cp + i0 + c0 + r0 + de)
                (e1 + i1 + c1 + r1) 256).
  f_equal. ring.
Qed.

(** Verification reads the 16 bit fields through the calculated checksum
    only. *)
Lemma verification_errors_wide_fields
    (mc rt ps er os el el' om tg cp iv iv' ct ct' rm rm' de ck : Z) :
  VevorHeaterStatusBle.calculated_checksum
    (VevorHeaterStatusBle.mk mc rt ps er os el om tg cp iv ct rm de ck)
  = VevorHeaterStatusBle.calculated_checksum
      (VevorHeaterStatusBle.mk mc rt ps er os el' om tg cp iv' ct' rm' de ck) ->
  VevorHeaterStatusBle.verification_errors
    (VevorHeaterStatusBle.mk mc rt ps er os el om tg cp iv ct rm de ck)
  = VevorHeaterStatusBle.verification_errors
      (VevorHeaterStatusBle.mk mc rt ps er os el' om tg cp iv' ct' rm' de ck).
Proof.
  intros H. unfold VevorHeaterStatusBle.verification_errors. rewrite H.
  reflexivity.
Qed.

(** X13: the checksum of a status frame is the sum of the eight one byte
    fields and of the low bytes of elevation, input voltage, combustion
    temperature and room temperature, modulo 256: the high bytes of the four
    16 bit fields drop out.  A frame keeps its verification result when
    those four bytes are replaced by any others. *)
Theorem checksum_blind_to_high_bytes :
  forall m0 m1 rt ps er os el0 el1 om tg cp iv0 iv1 ct0 ct1 rm0 rm1 de pad ck
         el1' iv1' ct1' rm1' : byte,
    exists s s',
      VevorHeaterStatusBle.unpack
        [m0; m1; rt; ps; er; os; el0; el1; om; tg; cp; iv0; iv1; ct0; ct1;
         rm0; rm1; de; pad; ck] = Ok s
      /\ VevorHeaterStatusBle.unpack
           [m0; m1; rt; ps; er; os; el0; el1'; om; tg; cp; iv0; iv1'; ct0; ct1';
            rm0; rm1'; de; pad; ck] = Ok s'
      /\ VevorHeaterStatusBle.calculated_checksum s
         = (int_of_byte ps + int_of_byte er + int_of_byte os + int_of_byte el0
            + int_of_byte om + int_of_byte tg + int_of_byte cp
            + int_of_byte iv0 + int_of_byte ct0 + int_of_byte rm0
            + int_of_byte de) mod 256
      /\ VevorHeaterStatusBle._verify s = VevorHeaterStatusBle._verify s'.
Proof.
  intros. do 2 eexists. split; [reflexivity|]. split; [reflexivity|].
  unfold u16le. split.
  - apply calculated_checksum_low.
  - unfold VevorHeaterStatusBle._verify.
    rewrite (verification_errors_wide_fields _ _ _ _ _ _
               (int_of_byte el0 + 256 * int_of_byte el1') _ _ _ _
               (int_of_byte iv0 + 256 * int_of_byte iv1') _
               (int_of_byte ct0 + 256 * int_of_byte ct1') _
               (int_of_byte rm0 + 256 * int_of_byte rm1')).
    + reflexivity.
    + rewrite !calculated_checksum_low. reflexivity.
Qed.
